(** * gomock: the mock generator [cmd/mock_gen/main.go]

    A shallow embedding of the generator's pipeline
    (parse, signature extraction, type naming, assembly, rendering)
    and the properties of it that the specification states.

    Go strings are byte strings ([string]); a Go [panic] is the [Panic]
    outcome of the [result] monad; the output sink is explicit state. *)

From Stdlib Require Import String Ascii List Bool Arith NArith ZArith Lia DecimalString.
Import ListNotations.
Open Scope string_scope.

(* ================================================================= *)
(** ** Run-time outcomes *)

(** The run-time panics the generator can raise. *)
Inductive panic : Type :=
| IndexOutOfRange (index : Z) (length : nat)
| NilPointerDereference
| InterfaceConversion.

(** A Go computation either returns a value or panics. *)
Inductive result (A : Type) : Type :=
| Ok (a : A)
| Panic (p : panic).

Arguments Ok {A} a.
Arguments Panic {A} p.

Definition bind {A B : Type} (m : result A) (k : A -> result B) : result B :=
  match m with
  | Ok a => k a
  | Panic p => Panic p
  end.

Notation "x <- m ;; k" := (bind m (fun x => k))
  (at level 61, m at next level, right associativity).

Definition isOk {A : Type} (m : result A) : bool :=
  match m with Ok _ => true | Panic _ => false end.

(** Go's [error] values: a plain message, or a message wrapping a cause
    (what [fmt.Errorf] builds for the verb [%w]). *)
Inductive error : Type :=
| errorString (msg : string)
| wrapError (msg : string) (cause : error).

Definition Error (e : error) : string :=
  match e with
  | errorString msg => msg
  | wrapError msg _ => msg
  end.

(** Slice indexing [s[i]]: out of range panics. *)
Definition index {A : Type} (s : list A) (i : nat) : result A :=
  match nth_error s i with
  | Some a => Ok a
  | None => Panic (IndexOutOfRange (Z.of_nat i) (List.length s))
  end.

(** [s[len(s)-1]]: on the empty slice the index is -1. *)
Definition indexLast {A : Type} (s : list A) : result A :=
  match s with
  | [] => Panic (IndexOutOfRange (-1) 0)
  | a :: s' => Ok (List.last s' a)
  end.

(* ================================================================= *)
(** ** Characters used by the templates *)

Definition LF : string := String (ascii_of_nat 10) "".
Definition TAB : string := String (ascii_of_nat 9) "".
Definition DQUOTE : string := String (ascii_of_nat 34) "".

(* ================================================================= *)
(** ** The functions of Go's [strings] and [fmt] that the generator calls *)

Module strings.

(** [strings.Join]. *)
Fixpoint Join (elems : list string) (sep : string) : string :=
  match elems with
  | [] => ""
  | e :: rest =>
      match rest with
      | [] => e
      | _ :: _ => e ++ sep ++ Join rest sep
      end
  end.

(** [strings.Contains]. *)
Fixpoint Contains (s substr : string) : bool :=
  prefix substr s ||
  match s with
  | "" => false
  | String _ rest => Contains rest substr
  end.

(** [strings.Split] for a non-empty separator (the generator only
    splits on [", "]): the pieces between the leftmost non-overlapping
    occurrences of [sep].  [splitFrom] returns the piece that starts at
    the head of [s] and the pieces after it; [skip] counts the bytes of
    a separator still to be passed over. *)
Fixpoint splitFrom (sep s : string) (skip : nat) : string * list string :=
  match s with
  | "" => ("", [])
  | String c rest =>
      match skip with
      | S k => splitFrom sep rest k
      | O =>
          if prefix sep s
          then let p := splitFrom sep rest (String.length sep - 1) in
               ("", fst p :: snd p)
          else let p := splitFrom sep rest 0 in
               (String c (fst p), snd p)
      end
  end.

Definition Split (s sep : string) : list string :=
  let p := splitFrom sep s 0 in fst p :: snd p.

(** The six ASCII white space bytes: tab, LF, VT, FF, CR, space. *)
Definition isAsciiSpace (c : ascii) : bool :=
  let b := N_of_ascii c in
  ((9 <=? b) && (b <=? 13) || (b =? 32))%N.

(** The width in bytes of the white space character ([unicode.IsSpace])
    that starts at the head of [s], 0 when there is none.  Beyond ASCII
    these are U+0085, U+00A0, U+1680, U+2000..U+200A, U+2028, U+2029,
    U+202F, U+205F and U+3000 in their UTF-8 encodings.  Each encoding
    starts with a byte that is no continuation byte, so wherever it
    occurs Go's decoder starts a character there. *)
Definition spaceWidth (s : string) : nat :=
  match s with
  | "" => 0
  | String c0 r0 =>
      if isAsciiSpace c0 then 1 else
      match r0 with
      | "" => 0
      | String c1 r1 =>
          let b0 := N_of_ascii c0 in
          let b1 := N_of_ascii c1 in
          if (((b1 =? 133) || (b1 =? 160)) && (b0 =? 194))%N then 2 else
          match r1 with
          | "" => 0
          | String c2 _ =>
              let b2 := N_of_ascii c2 in
              if ((b2 =? 128) && (b1 =? 154) && (b0 =? 225)
                  || ((128 <=? b2) && (b2 <=? 138) || (168 <=? b2) && (b2 <=? 169)
                      || (b2 =? 175)) && (b1 =? 128) && (b0 =? 226)
                  || (b2 =? 159) && (b1 =? 129) && (b0 =? 226)
                  || (b2 =? 128) && (b1 =? 128) && (b0 =? 227))%N
              then 3 else 0
          end
      end
  end.

Definition pushField (p : string * list string) : list string :=
  if (fst p =? "")%string then snd p else fst p :: snd p.

(** [fieldsFrom s skip]: the (possibly empty) run of non-space bytes
    that starts at the head of [s], and the fields after it. *)
Fixpoint fieldsFrom (s : string) (skip : nat) : string * list string :=
  match s with
  | "" => ("", [])
  | String c rest =>
      match skip with
      | S k => fieldsFrom rest k
      | O =>
          match spaceWidth s with
          | O => let p := fieldsFrom rest 0 in (String c (fst p), snd p)
          | S k => ("", pushField (fieldsFrom rest k))
          end
      end
  end.

(** [strings.Fields]: the maximal runs of bytes of [s] that hold no
    white space character. *)
Definition Fields (s : string) : list string :=
  pushField (fieldsFrom s 0).

(** No white space character anywhere in [s]. *)
Fixpoint noSpace (s : string) : bool :=
  match s with
  | "" => true
  | String _ rest => (spaceWidth s =? 0)%nat && noSpace rest
  end.

End strings.

Module fmt.

(** The verb [%d] on a non-negative [int]. *)
Definition Itoa (n : nat) : string :=
  NilEmpty.string_of_uint (Nat.to_uint n).

(** [fmt.Errorf(prefix+"%w", err)]. *)
Definition Errorf_w (prefix : string) (err : error) : error :=
  wrapError (prefix ++ Error err) err.

End fmt.

(* ================================================================= *)
(** ** The syntax trees of [go/ast] that the generator inspects *)

Module ast.

(** Expression and type nodes.  An [*ast.Ident] is its [Name]; a
    [*ast.FieldList] is its [List], [None] when the pointer is nil
    (the parser leaves [Results] nil for a signature without results,
    and always allocates [Methods], [Fields] and [Params]). *)
#[warnings="-register-all"] Inductive Expr : Type :=
| BadExpr
| Ident (Name : string)
| Ellipsis (Elt : option Expr)
| BasicLit (Value : string)
| ParenExpr (X : Expr)
| SelectorExpr (X : Expr) (Sel : string)
| IndexExpr (X Index : Expr)
| StarExpr (X : Expr)
| ArrayType (Len : option Expr) (Elt : Expr)
| StructType (Fields : list Field)
| FuncType (Params Results : option (list Field))
| InterfaceType (Methods : list Field)
| MapType (Key Value : Expr)
| ChanType (Value : Expr)
with Field : Type :=
| mkField (Names : list string) (Type_ : Expr).

Definition FieldList : Type := list Field.

Definition Names (f : Field) : list string :=
  match f with mkField names _ => names end.

Definition Type_ (f : Field) : Expr :=
  match f with mkField _ ty => ty end.

Inductive Spec : Type :=
| ImportSpec (Path : string)
| ValueSpec (Names : list string)
| TypeSpec (Name : string) (Type_ : Expr).

Inductive Token : Type := IMPORT | CONST | TYPE | VAR.

Inductive Decl : Type :=
| BadDecl
| GenDecl (Tok : Token) (Specs : list Spec)
| FuncDecl (Name : string).

Record File : Type := mkFile { Name : string; Decls : list Decl }.

(** The node kinds [getTypeName] has a case for. *)
Definition supported (expr : Expr) : bool :=
  match expr with
  | Ident _ | SelectorExpr _ _ | StarExpr _ | ArrayType _ _
  | MapType _ _ | InterfaceType _ | FuncType _ _ => true
  | _ => false
  end.

End ast.

(** [parser.ParseFile]: the file, or the syntax error. *)
Definition Parser : Type := string -> ast.File + error.

(* ================================================================= *)
(** ** The generator *)

Record MethodData : Type := { MethodCode : string }.

Record Mocks : Type := { MockName : string; Methods : list MethodData }.

Record TemplateData : Type := { Mocks_ : list Mocks }.

(** The output sink, a [*bufio.Writer]: the bytes accepted so far and
    the writer's sticky error.  The writer under it is taken to accept
    every byte, as the in-memory buffer of the repository's test does. *)
Record Writer : Type := { written : string; err : option error }.

Definition NewWriter : Writer := {| written := ""; err := None |}.

Section TypeNamer.

(** [getParameters], [getFunctionSignature] over a given type namer;
    [getTypeName] below ties the knot. *)
Variable getTypeName : ast.Expr -> result string.

(** The inner loop of [getParameters]: one ["name type"] per name.
    [typeName] is [getTypeName(field.Type)], which the loop evaluates
    for every name. *)
Fixpoint namedParameters (typeName : result string) (names : list string)
  : result (list string) :=
  match names with
  | [] => Ok []
  | name :: names' =>
      t <- typeName ;;
      params <- namedParameters typeName names' ;;
      Ok ((name ++ " " ++ t) :: params)
  end.

(** The outer loop of [getParameters]. *)
Fixpoint fieldParameters (fields : list ast.Field) : result (list string) :=
  match fields with
  | [] => Ok []
  | ast.mkField names ty :: fields' =>
      ps <- match names with
            | [] => t <- getTypeName ty ;; Ok [t]
            | _ :: _ => namedParameters (getTypeName ty) names
            end ;;
      params <- fieldParameters fields' ;;
      Ok (ps ++ params)%list
  end.

Definition getParametersWith (fieldList : option ast.FieldList) : result string :=
  match fieldList with
  | None => Ok (strings.Join [] ", ")
  | Some fields =>
      params <- fieldParameters fields ;;
      Ok (strings.Join params ", ")
  end.

Definition getFunctionSignatureWith (Params Results : option ast.FieldList)
  : result string :=
  ps <- match Params with
        | Some _ => p <- getParametersWith Params ;; Ok [p]
        | None => Ok []
        end ;;
  rs <- match Results with
        | Some _ => r <- getParametersWith Results ;; Ok [r]
        | None => Ok []
        end ;;
  Ok ("(" ++ strings.Join (ps ++ rs)%list ", " ++ ")").

End TypeNamer.

Fixpoint getTypeName (expr : ast.Expr) : result string :=
  match expr with
  | ast.Ident Name => Ok Name
  | ast.SelectorExpr X Sel =>
      match X with
      | ast.Ident xName => Ok (xName ++ "." ++ Sel)
      | _ => Panic NilPointerDereference
      end
  | ast.StarExpr X => s <- getTypeName X ;; Ok ("" ++ s)
  | ast.ArrayType _ Elt => s <- getTypeName Elt ;; Ok ("[]" ++ s)
  | ast.MapType Key Value =>
      key <- getTypeName Key ;;
      value <- getTypeName Value ;;
      Ok ("map[" ++ key ++ "]" ++ value)
  | ast.InterfaceType _ => Ok "interface{}"
  | ast.FuncType Params Results =>
      s <- getFunctionSignatureWith getTypeName Params Results ;;
      Ok ("func" ++ s)
  | _ => Ok ""
  end.

Definition getParameters : option ast.FieldList -> result string :=
  getParametersWith getTypeName.

Definition getFunctionSignature : option ast.FieldList -> option ast.FieldList -> result string :=
  getFunctionSignatureWith getTypeName.

Fixpoint argumentNames (params : list string) : result (list string) :=
  match params with
  | [] => Ok []
  | param :: params' =>
      name <- index (strings.Fields param) 0 ;;
      argNames <- argumentNames params' ;;
      Ok (name :: argNames)
  end.

Definition getArgumentNames (paramList : string) : result string :=
  argNames <- argumentNames (strings.Split paramList ", ") ;;
  Ok (strings.Join argNames ", ").

Definition getTypeNameFromString (typeString : string) : result string :=
  indexLast (strings.Fields typeString).

(** The loop of [getReturnNames], from index [i] on. *)
Fixpoint returnNamesFrom (i : nat) (returnNames : list string) : result (list string) :=
  match returnNames with
  | [] => Ok []
  | r :: returnNames' =>
      t <- getTypeNameFromString r ;;
      names <- returnNamesFrom (S i) returnNames' ;;
      Ok (("args.Get(" ++ fmt.Itoa i ++ ").(" ++ t ++ ")") :: names)
  end.

Definition getReturnNames (returnList : string) : result string :=
  names <- returnNamesFrom 0 (strings.Split returnList ", ") ;;
  Ok (strings.Join names ", ").

(** The format of a method:
    [func (m *%s) %s(%s) (%s) {\n\targs := m.Called(%s)\n\treturn %s\n}]. *)
Definition formatMethod (mockName methodName paramList returnList argNames returnNames : string)
  : string :=
  "func (m *" ++ mockName ++ ") " ++ methodName ++ "(" ++ paramList ++ ") ("
    ++ returnList ++ ") {" ++ LF ++ TAB ++ "args := m.Called(" ++ argNames ++ ")"
    ++ LF ++ TAB ++ "return " ++ returnNames ++ LF ++ "}".

(** The body of the loop of [getMethodsFromInterface]. *)
Definition methodData (mockName : string) (method : ast.Field) : result MethodData :=
  methodName <- index (ast.Names method) 0 ;;
  match ast.Type_ method with
  | ast.FuncType Params Results =>
      paramList <- getParameters Params ;;
      returnList <- getParameters Results ;;
      argNames <- getArgumentNames paramList ;;
      returnNames <- getReturnNames returnList ;;
      Ok {| MethodCode :=
              formatMethod mockName methodName paramList returnList argNames returnNames |}
  | _ => Panic InterfaceConversion
  end.

Fixpoint methodsOf (mockName : string) (methods : list ast.Field) : result (list MethodData) :=
  match methods with
  | [] => Ok []
  | method :: methods' =>
      m <- methodData mockName method ;;
      ms <- methodsOf mockName methods' ;;
      Ok (m :: ms)
  end.

(** [interfaceType] is the method list of the [*ast.InterfaceType]. *)
Definition getMethodsFromInterface (interfaceType : ast.FieldList) (mockName : string)
  : result (list MethodData) :=
  methodsOf mockName interfaceType.

(** The loop over the fields of a struct type. *)
Fixpoint structMocks (fields : list ast.Field) : result (list Mocks) :=
  match fields with
  | [] => Ok []
  | field :: fields' =>
      ms <- match ast.Type_ field with
            | ast.InterfaceType methods =>
                first <- index (ast.Names field) 0 ;;
                let name := first ++ "Mock" in
                methods' <- getMethodsFromInterface methods name ;;
                Ok [ {| MockName := name; Methods := methods' |} ]
            | _ => Ok []
            end ;;
      rest <- structMocks fields' ;;
      Ok (ms ++ rest)%list
  end.

(** The type switch on one spec of a declaration. *)
Definition specMocks (spec : ast.Spec) : result (list Mocks) :=
  match spec with
  | ast.TypeSpec Name (ast.InterfaceType methods) =>
      let name := Name ++ "Mock" in
      methods' <- getMethodsFromInterface methods name ;;
      Ok [ {| MockName := name; Methods := methods' |} ]
  | ast.TypeSpec _ (ast.StructType fields) => structMocks fields
  | _ => Ok []
  end.

Fixpoint specsMocks (specs : list ast.Spec) : result (list Mocks) :=
  match specs with
  | [] => Ok []
  | spec :: specs' =>
      ms <- specMocks spec ;;
      rest <- specsMocks specs' ;;
      Ok (ms ++ rest)%list
  end.

Fixpoint declsMocks (decls : list ast.Decl) : result (list Mocks) :=
  match decls with
  | [] => Ok []
  | decl :: decls' =>
      ms <- match decl with
            | ast.GenDecl _ specs => specsMocks specs
            | _ => Ok []
            end ;;
      rest <- declsMocks decls' ;;
      Ok (ms ++ rest)%list
  end.

(** The text of [mockTemplate] before [{{ range .Mocks }}]. *)
Definition mockHeader : string :=
  LF ++ "package mocks" ++ LF ++ LF ++ "import (" ++ LF
     ++ TAB ++ DQUOTE ++ "github.com/stretchr/testify/mock" ++ DQUOTE ++ LF
     ++ ")" ++ LF.

(** The body of [{{- range .Methods }}]: the text before the action is
    two line feeds, the one after it is trimmed by [{{- end }}]. *)
Definition renderMethod (m : MethodData) : string :=
  LF ++ LF ++ MethodCode m.

(** The body of [{{ range .Mocks }}]: the line feed after the struct's
    closing brace is trimmed by [{{- range]; the one before [{{ end -}}]
    stays, the one after it is trimmed. *)
Definition renderMock (m : Mocks) : string :=
  LF ++ "type " ++ MockName m ++ " struct {" ++ LF ++ TAB ++ "mock.Mock" ++ LF ++ "}"
     ++ String.concat "" (map renderMethod (Methods m)) ++ LF.

(** What executing [mockTemplate] on [data] writes. *)
Definition mockTemplate (data : TemplateData) : string :=
  mockHeader ++ String.concat "" (map renderMock (Mocks_ data)).

(** [tmpl.Execute(writer, data)]: a writer in error refuses the first
    write and the execution stops with that error. *)
Definition Execute (writer : Writer) (data : TemplateData) : Writer * option error :=
  match err writer with
  | Some e => (writer, Some e)
  | None => ({| written := written writer ++ mockTemplate data; err := None |}, None)
  end.

Section Generator.

Variable ParseFile : Parser.

(** The final state of the sink and how the call ended: returned
    error ([None] is nil) or panic. *)
Definition interfaceToMock (writer : Writer) (interfaceCode : string)
  : Writer * result (option error) :=
  match ParseFile ("package main" ++ LF ++ interfaceCode) with
  | inr e => (writer, Ok (Some (fmt.Errorf_w "parser.ParseFile: " e)))
  | inl node =>
      match declsMocks (ast.Decls node) with
      | Panic p => (writer, Panic p)
      | Ok mocks =>
          let templateData := {| Mocks_ := mocks |} in
          match Execute writer templateData with
          | (writer', Some e) => (writer', Ok (Some (fmt.Errorf_w "tmpl.Execute: " e)))
          | (writer', None) => (writer', Ok None)
          end
      end
  end.

End Generator.

(* ================================================================= *)
(** ** The specification's vocabulary *)

(** A non-empty string without white space: one token for
    [strings.Fields]. *)
Definition isToken (s : string) : bool :=
  negb (s =? "") && strings.noSpace s.

Fixpoint noComma (s : string) : bool :=
  match s with
  | "" => true
  | String c rest => negb (Ascii.eqb c ",") && noComma rest
  end.

(** The shape of a name: a token without a comma (every Go identifier
    is one). *)
Definition isName (s : string) : bool :=
  isToken s && noComma s.

(** A rendered entry that survives the round trip through the joined
    text: it holds no separator and has a token. *)
Definition splitSafe (entry : string) : Prop :=
  strings.Contains entry ", " = false /\ strings.Fields entry <> [].

Definition firstToken (entry : string) : string :=
  hd "" (strings.Fields entry).

Definition lastToken (entry : string) : string :=
  last (strings.Fields entry) "".

(** The specification's parameter descriptor: the name, when there is one, and
    the rendered type. *)
Definition Descriptor : Type := (option string * string)%type.

Definition renderDescriptor (p : Descriptor) : string :=
  match p with
  | (Some name, ty) => name ++ " " ++ ty
  | (None, ty) => ty
  end.

(** The specification's signature extraction: a field without names
    is one unnamed descriptor, a field with names is one descriptor per
    name, all of the field's type. *)
Fixpoint signature (fields : list ast.Field) : result (list Descriptor) :=
  match fields with
  | [] => Ok []
  | ast.mkField names ty :: fields' =>
      t <- getTypeName ty ;;
      rest <- signature fields' ;;
      Ok (match names with
          | [] => [(None, t)]
          | _ :: _ => map (fun name => (Some name, t)) names
          end ++ rest)%list
  end.

(** A descriptor whose name (if any) is a name and whose type text is
    one token. *)
Definition plainDescriptor (p : Descriptor) : bool :=
  match fst p with
  | Some name => isName name
  | None => true
  end && isToken (snd p).

(** A type built from identifiers by qualification, pointers, slices,
    maps and inline interfaces (no function type, no unsupported
    node). *)
Fixpoint plainType (expr : ast.Expr) : bool :=
  match expr with
  | ast.Ident Name => isToken Name
  | ast.SelectorExpr X Sel =>
      match X with
      | ast.Ident pkg => strings.noSpace pkg && strings.noSpace Sel
      | _ => false
      end
  | ast.StarExpr X => plainType X
  | ast.ArrayType _ Elt => plainType Elt
  | ast.MapType Key Value => plainType Key && plainType Value
  | ast.InterfaceType _ => true
  | _ => false
  end.

(** A field whose names are names and whose type is plain. *)
Definition plainField (field : ast.Field) : bool :=
  forallb isName (ast.Names field) && plainType (ast.Type_ field).

(** The rendered entries of one field. *)
Definition fieldEntries (names : list string) (t : string) : list string :=
  match names with
  | [] => [t]
  | _ :: _ => map (fun name => name ++ " " ++ t) names
  end.

(** The extraction expressions for the bare types [types], numbered
    from [i]. *)
Fixpoint extractions (i : nat) (types : list string) : list string :=
  match types with
  | [] => []
  | t :: types' => ("args.Get(" ++ fmt.Itoa i ++ ").(" ++ t ++ ")") :: extractions (S i) types'
  end.

(** The method lists of the interfaces the generator visits: the
    interface types declared by name and the interface-typed fields of
    the declared struct types, in source order. *)
Definition fieldInterfaces (field : ast.Field) : list ast.FieldList :=
  match ast.Type_ field with
  | ast.InterfaceType methods => [methods]
  | _ => []
  end.

Definition specInterfaces (spec : ast.Spec) : list ast.FieldList :=
  match spec with
  | ast.TypeSpec _ (ast.InterfaceType methods) => [methods]
  | ast.TypeSpec _ (ast.StructType fields) => flat_map fieldInterfaces fields
  | _ => []
  end.

Definition declInterfaces (decl : ast.Decl) : list ast.FieldList :=
  match decl with
  | ast.GenDecl _ specs => flat_map specInterfaces specs
  | _ => []
  end.

Definition visitedInterfaces (file : ast.File) : list ast.FieldList :=
  flat_map declInterfaces (ast.Decls file).

(** A method declared with an empty parameter list, [M()]. *)
Definition emptyParameterList (method : ast.Field) : bool :=
  match ast.Type_ method with
  | ast.FuncType (Some []) _ | ast.FuncType None _ => true
  | _ => false
  end.

(** A method declared without results, [M(...)]. *)
Definition noResults (method : ast.Field) : bool :=
  match ast.Type_ method with
  | ast.FuncType _ None | ast.FuncType _ (Some []) => true
  | _ => false
  end.

(** A method the assembly panics on, whatever the mock is called. *)
Definition panics (method : ast.Field) : Prop :=
  forall mockName, isOk (methodData mockName method) = false.

(** Every qualified name the type namer reaches has an identifier as
    its qualifier, as in every type the parser builds. *)
Fixpoint qualifiersAreIdents (expr : ast.Expr) : bool :=
  let fields (l : option ast.FieldList) :=
    match l with
    | None => true
    | Some fs =>
        forallb (fun f => match f with ast.mkField _ ty => qualifiersAreIdents ty end) fs
    end in
  match expr with
  | ast.SelectorExpr X _ => match X with ast.Ident _ => true | _ => false end
  | ast.StarExpr X => qualifiersAreIdents X
  | ast.ArrayType _ Elt => qualifiersAreIdents Elt
  | ast.MapType Key Value => qualifiersAreIdents Key && qualifiersAreIdents Value
  | ast.FuncType Params Results => fields Params && fields Results
  | _ => true
  end.

(** [P] on the type of every field of a list that is there. *)
Definition fieldsAll (P : ast.Expr -> Prop) (l : option ast.FieldList) : Prop :=
  match l with
  | None => True
  | Some fs => Forall (fun f => P (ast.Type_ f)) fs
  end.

(** The struct block of a mock without methods. *)
Definition emptyBlock (Name : string) : string :=
  LF ++ "type " ++ (Name ++ "Mock") ++ " struct {" ++ LF ++ TAB ++ "mock.Mock" ++ LF ++ "}"
     ++ LF.

(** What C2 states of a result list: the return statement is made of
    one extraction per declared result, cast to its rendered type. *)
Definition extractionPerResult (results : option ast.FieldList) : Prop :=
  exists sig returnList,
    signature (match results with Some fields => fields | None => [] end) = Ok sig
    /\ getParameters results = Ok returnList
    /\ getReturnNames returnList
       = Ok (strings.Join (extractions 0 (map snd sig)) ", ").

(** What C6 states of a field with the names [names] and the type [T]:
    one entry per name with the type text of [T], and the names
    forwarded in that order. *)
Definition namesForwarded (names : list string) (T : ast.Expr) : Prop :=
  exists t paramList,
    getTypeName T = Ok t
    /\ fieldParameters getTypeName [ast.mkField names T]
       = Ok (map (fun name => name ++ " " ++ t) names)
    /\ getParameters (Some [ast.mkField names T]) = Ok paramList
    /\ getArgumentNames paramList = Ok (strings.Join names ", ").

(** The pieces into which the joined text of the entries splits
    again. *)
Definition pieces (entries : list string) : list string :=
  flat_map (fun entry => strings.Split entry ", ") entries.


(** A parser that knows one source text. *)
Definition parserOf (src : string) (file : ast.File) : Parser :=
  fun s => if (s =? src)%string then inl file else inr (errorString "syntax error").

(* ================================================================= *)
(** ** Sample declarations *)

Definition named (name type : string) : ast.Field :=
  ast.mkField [name] (ast.Ident type).

Definition unnamed (type : string) : ast.Field :=
  ast.mkField [] (ast.Ident type).

Definition interfaceFile (name : string) (methods : ast.FieldList) : ast.File :=
  ast.mkFile "main" [ast.GenDecl ast.TYPE [ast.TypeSpec name (ast.InterfaceType methods)]].

(** [Method1(arg1 string, arg2 int) (string, error)] *)
Definition Method1 : ast.Field :=
  ast.mkField ["Method1"]
    (ast.FuncType (Some [named "arg1" "string"; named "arg2" "int"])
                  (Some [unnamed "string"; unnamed "error"])).

Definition biduleCode : string :=
  "type bidule interface { Method1(arg1 string, arg2 int) (string, error) }".

(** The tree of [biduleCode] under its package clause. *)
Definition biduleFile : ast.File := interfaceFile "bidule" [Method1].

(** [M(a int)] *)
Definition MethodNoResult : ast.Field :=
  ast.mkField ["M"] (ast.FuncType (Some [named "a" "int"]) None).

Definition noResultCode : string := "type T interface { M(a int) }".

Definition noResultFile : ast.File := interfaceFile "T" [MethodNoResult].

Definition emptyInterfaceCode : string := "type nothing interface {}".

Definition emptyInterfaceFile : ast.File := interfaceFile "nothing" [].

(** [Close() error] *)
Definition MethodNoParameter : ast.Field :=
  ast.mkField ["Close"] (ast.FuncType (Some []) (Some [unnamed "error"])).

Definition noParameterCode : string := "type closer interface { Close() error }".

Definition noParameterFile : ast.File := interfaceFile "closer" [MethodNoParameter].

(** [(ret1 foo.Bar, err error)] *)
Definition packResults : list ast.Field :=
  [ ast.mkField ["ret1"] (ast.SelectorExpr (ast.Ident "foo") "Bar"); named "err" "error" ].

(** [(func(a, b int))]: one result, a function type. *)
Definition funcResults : list ast.Field :=
  [ ast.mkField [] (ast.FuncType (Some [ast.mkField ["a"; "b"] (ast.Ident "int")]) None) ].

(** [func(x, y int)] *)
Definition funcOfTwo : ast.Expr :=
  ast.FuncType (Some [ast.mkField ["x"; "y"] (ast.Ident "int")]) None.




(** [(f func(x, y int), a, b int)]: two names under one type after a
    function type of two parameters. *)
Definition funcThenGrouped : list ast.Field :=
  [ ast.mkField ["f"] funcOfTwo; ast.mkField ["a"; "b"] (ast.Ident "int") ].

(* ================================================================= *)
(** ** Expected outputs: the scenario and the cases of [Test_interfaceToMock] *)

Definition text (lines : list string) : string := strings.Join lines LF.

Definition method (name : string) (params results : list ast.Field) : ast.Field :=
  ast.mkField [name] (ast.FuncType (Some params) (Some results)).

Definition expectedHeader : list string :=
  [ "";
    "package mocks";
    "";
    "import (";
    TAB ++ DQUOTE ++ "github.com/stretchr/testify/mock" ++ DQUOTE;
    ")";
    "" ].

(** The output of the end-to-end scenario, line by line. *)
Definition biduleOutput : string :=
  text (app expectedHeader
        [ "type biduleMock struct {";
          TAB ++ "mock.Mock";
          "}";
          "";
          "func (m *biduleMock) Method1(arg1 string, arg2 int) (string, error) {";
          TAB ++ "args := m.Called(arg1, arg2)";
          TAB ++ "return args.Get(0).(string), args.Get(1).(error)";
          "}";
          "" ]).

Definition classicCode : string :=
  text [ "type bidule interface {";
         "Method1(arg1 string, arg2 int) (string, error)";
         "Method2(arg1 bool, arg2 int) (string, error)";
         "}" ].

Definition classicMethods : ast.FieldList :=
  [ method "Method1" [named "arg1" "string"; named "arg2" "int"]
           [unnamed "string"; unnamed "error"];
    method "Method2" [named "arg1" "bool"; named "arg2" "int"]
           [unnamed "string"; unnamed "error"] ].

Definition classicFile : ast.File := interfaceFile "bidule" classicMethods.

Definition classicExpected : string :=
  text (app expectedHeader
        [ "type biduleMock struct {";
          TAB ++ "mock.Mock";
          "}";
          "";
          "func (m *biduleMock) Method1(arg1 string, arg2 int) (string, error) {";
          TAB ++ "args := m.Called(arg1, arg2)";
          TAB ++ "return args.Get(0).(string), args.Get(1).(error)";
          "}";
          "";
          "func (m *biduleMock) Method2(arg1 bool, arg2 int) (string, error) {";
          TAB ++ "args := m.Called(arg1, arg2)";
          TAB ++ "return args.Get(0).(string), args.Get(1).(error)";
          "}";
          "" ]).

Definition classic2Code : string :=
  text [ "type s struct{";
         "bidule interface {";
         "Method1(arg1 string, arg2 int) (string, error)";
         "Method2(arg1 bool, arg2 int) (string, error)";
         "}";
         "chose interface {";
         "Method1(arg1 string, arg2 int) (string, error)";
         "Method2(arg1 []string, arg2 int) (string, error)";
         "}";
         "}" ].

Definition classic2File : ast.File :=
  ast.mkFile "main"
    [ ast.GenDecl ast.TYPE
        [ ast.TypeSpec "s"
            (ast.StructType
               [ ast.mkField ["bidule"] (ast.InterfaceType classicMethods);
                 ast.mkField ["chose"]
                   (ast.InterfaceType
                      [ method "Method1" [named "arg1" "string"; named "arg2" "int"]
                               [unnamed "string"; unnamed "error"];
                        method "Method2"
                               [ ast.mkField ["arg1"] (ast.ArrayType None (ast.Ident "string"));
                                 named "arg2" "int" ]
                               [unnamed "string"; unnamed "error"] ]) ]) ] ].

Definition classic2Expected : string :=
  text (app expectedHeader
        [ "type biduleMock struct {";
          TAB ++ "mock.Mock";
          "}";
          "";
          "func (m *biduleMock) Method1(arg1 string, arg2 int) (string, error) {";
          TAB ++ "args := m.Called(arg1, arg2)";
          TAB ++ "return args.Get(0).(string), args.Get(1).(error)";
          "}";
          "";
          "func (m *biduleMock) Method2(arg1 bool, arg2 int) (string, error) {";
          TAB ++ "args := m.Called(arg1, arg2)";
          TAB ++ "return args.Get(0).(string), args.Get(1).(error)";
          "}";
          "";
          "type choseMock struct {";
          TAB ++ "mock.Mock";
          "}";
          "";
          "func (m *choseMock) Method1(arg1 string, arg2 int) (string, error) {";
          TAB ++ "args := m.Called(arg1, arg2)";
          TAB ++ "return args.Get(0).(string), args.Get(1).(error)";
          "}";
          "";
          "func (m *choseMock) Method2(arg1 []string, arg2 int) (string, error) {";
          TAB ++ "args := m.Called(arg1, arg2)";
          TAB ++ "return args.Get(0).(string), args.Get(1).(error)";
          "}";
          "" ]).

Definition namedReturnedCode : string :=
  text [ "type bidule interface {";
         "Method1(arg1 string, arg2 int) (ret1 string, err error)";
         "Method2(arg1 bool, arg2 int) (ret1 string, err error)";
         "}" ].

Definition namedReturnedFile : ast.File :=
  interfaceFile "bidule"
    [ method "Method1" [named "arg1" "string"; named "arg2" "int"]
             [named "ret1" "string"; named "err" "error"];
      method "Method2" [named "arg1" "bool"; named "arg2" "int"]
             [named "ret1" "string"; named "err" "error"] ].

Definition namedReturnedExpected : string :=
  text (app expectedHeader
        [ "type biduleMock struct {";
          TAB ++ "mock.Mock";
          "}";
          "";
          "func (m *biduleMock) Method1(arg1 string, arg2 int) (ret1 string, err error) {";
          TAB ++ "args := m.Called(arg1, arg2)";
          TAB ++ "return args.Get(0).(string), args.Get(1).(error)";
          "}";
          "";
          "func (m *biduleMock) Method2(arg1 bool, arg2 int) (ret1 string, err error) {";
          TAB ++ "args := m.Called(arg1, arg2)";
          TAB ++ "return args.Get(0).(string), args.Get(1).(error)";
          "}";
          "" ]).

Definition reusedTypeCode : string :=
  text [ "type bidule interface {";
         "Method1(arg1 string, arg2 int) (ret1 string, err error)";
         "Method2(arg1, arg2 int) (ret1 string, err error)";
         "}" ].

Definition reusedTypeFile : ast.File :=
  interfaceFile "bidule"
    [ method "Method1" [named "arg1" "string"; named "arg2" "int"]
             [named "ret1" "string"; named "err" "error"];
      method "Method2" [ast.mkField ["arg1"; "arg2"] (ast.Ident "int")]
             [named "ret1" "string"; named "err" "error"] ].

Definition reusedTypeExpected : string :=
  text (app expectedHeader
        [ "type biduleMock struct {";
          TAB ++ "mock.Mock";
          "}";
          "";
          "func (m *biduleMock) Method1(arg1 string, arg2 int) (ret1 string, err error) {";
          TAB ++ "args := m.Called(arg1, arg2)";
          TAB ++ "return args.Get(0).(string), args.Get(1).(error)";
          "}";
          "";
          "func (m *biduleMock) Method2(arg1 int, arg2 int) (ret1 string, err error) {";
          TAB ++ "args := m.Called(arg1, arg2)";
          TAB ++ "return args.Get(0).(string), args.Get(1).(error)";
          "}";
          "" ]).

Definition packCode : string :=
  text [ "type bidule interface {";
         "Method1(arg1 string, arg2 toto.Titi) (ret1 string, err error)";
         "Method2(arg1, arg2 int) (ret1 foo.Bar, err error)";
         "}" ].

Definition packFile : ast.File :=
  interfaceFile "bidule"
    [ method "Method1"
             [ named "arg1" "string";
               ast.mkField ["arg2"] (ast.SelectorExpr (ast.Ident "toto") "Titi") ]
             [named "ret1" "string"; named "err" "error"];
      method "Method2" [ast.mkField ["arg1"; "arg2"] (ast.Ident "int")] packResults ].

Definition packExpected : string :=
  text (app expectedHeader
        [ "type biduleMock struct {";
          TAB ++ "mock.Mock";
          "}";
          "";
          "func (m *biduleMock) Method1(arg1 string, arg2 toto.Titi) (ret1 string, err error) {";
          TAB ++ "args := m.Called(arg1, arg2)";
          TAB ++ "return args.Get(0).(string), args.Get(1).(error)";
          "}";
          "";
          "func (m *biduleMock) Method2(arg1 int, arg2 int) (ret1 foo.Bar, err error) {";
          TAB ++ "args := m.Called(arg1, arg2)";
          TAB ++ "return args.Get(0).(foo.Bar), args.Get(1).(error)";
          "}";
          "" ]).

(** One run of the test's loop body: a fresh buffer, the call, the
    flushed bytes. *)
Definition runTest (interfaceCode : string) (node : ast.File) : Writer * result (option error) :=
  interfaceToMock (parserOf ("package main" ++ LF ++ interfaceCode) node) NewWriter interfaceCode.

Definition passes (interfaceCode : string) (node : ast.File) (expected : string) : Prop :=
  runTest interfaceCode node = ({| written := expected; err := None |}, Ok None).

(* ================================================================= *)
(** ** The command: [getWriter] and [main] *)

Module os.

(** [os.ModeCharDevice], bit 21 of a file mode. *)
Definition ModeCharDevice : Z := Z.shiftl 1 21.

End os.

(** What the process finds around it.  [Args] is [os.Args];
    [StdoutMode] is the mode of [os.Stdout.Stat()], [None] when [Stat]
    gives no file info; [Create] is [os.Create], [None] when the file
    is created or truncated; [FlagParse] is [flag.Parse] on the
    arguments after the program name with the one flag [-result]: the
    path it leaves, or the status and the message with which it ends
    the process; [Parse] is [parser.ParseFile]. *)
Record Env : Type := {
  Args : list string;
  StdoutMode : option Z;
  Create : string -> option error;
  FlagParse : list string -> string + (nat * string);
  Parse : Parser
}.

Definition errMissingResult : error := errorString "result is required".

(** Where the writer of [getWriter] writes to. *)
Inductive Sink : Type :=
| ToFile (path : string)
| ToStdout.

(** [getWriter]: a fresh writer and its sink, or the returned error.
    [path] is [None] for the nil pointer. *)
Definition getWriter (env : Env) (path : option string) : result (Writer * Sink + error) :=
  match StdoutMode env with
  | None => Panic NilPointerDereference
  | Some mode =>
      if (Z.land mode os.ModeCharDevice =? os.ModeCharDevice)%Z
      then match path with
           | None => Ok (inr errMissingResult)
           | Some p =>
               if (p =? "")%string then Ok (inr errMissingResult)
               else match Create env p with
                    | Some e => Ok (inr e)
                    | None => Ok (inl (NewWriter, ToFile p))
                    end
           end
      else Ok (inl (NewWriter, ToStdout))
  end.

(** How the process ends: the exit status with what reached standard
    output and standard error, or a panic (whose trace on standard
    error is not described); in both, the file created and its
    contents. *)
Inductive Outcome : Type :=
| Exited (code : nat) (stdout stderr : string) (file : option (string * string))
| Crashed (p : panic) (stdout : string) (file : option (string * string)).

(** What reaches standard output and the file when [flushed] is what
    the writer hands to its sink. *)
Definition toStdout (sink : Sink) (flushed : string) : string :=
  match sink with
  | ToStdout => flushed
  | ToFile _ => ""
  end.

Definition toFile (sink : Sink) (flushed : string) : option (string * string) :=
  match sink with
  | ToStdout => None
  | ToFile path => Some (path, flushed)
  end.

Definition usage : string := "Usage: go run main.go <interface>" ++ LF.

(** [main].  The deferred [closer] flushes the writer when [main]
    returns or panics; [os.Exit] does not run it, so what the writer
    still holds is dropped. *)
Definition main (env : Env) : Outcome :=
  if negb (length (Args env) =? 2)%nat
  then Exited 0 usage "" None
  else
    match FlagParse env (tl (Args env)) with
    | inr (code, message) => Exited code "" message None
    | inl path =>
        match index (Args env) 1 with
        | Panic p => Crashed p "" None
        | Ok interfaceCode =>
            match getWriter env (Some path) with
            | Panic p => Crashed p "" None
            | Ok (inr e) => Exited 1 "" (Error e ++ LF) None
            | Ok (inl (writer, sink)) =>
                match interfaceToMock (Parse env) writer interfaceCode with
                | (writer', Ok None) =>
                    Exited 0 (toStdout sink (written writer')) "" (toFile sink (written writer'))
                | (_, Ok (Some e)) =>
                    Exited 1 (toStdout sink "") (Error e ++ LF) (toFile sink "")
                | (writer', Panic p) =>
                    Crashed p (toStdout sink (written writer')) (toFile sink (written writer'))
                end
            end
        end
    end.

Definition fileOf (o : Outcome) : option (string * string) :=
  match o with
  | Exited _ _ _ file => file
  | Crashed _ _ file => file
  end.

Definition stdoutOf (o : Outcome) : string :=
  match o with
  | Exited _ stdout _ _ => stdout
  | Crashed _ stdout _ => stdout
  end.

Definition isCharDevice (env : Env) : bool :=
  match StdoutMode env with
  | Some mode => (Z.land mode os.ModeCharDevice =? os.ModeCharDevice)%Z
  | None => false
  end.

(* ================================================================= *)
(** ** Further vocabulary *)

(** A piece without a token. *)
Definition blank (piece : string) : bool :=
  match strings.Fields piece with
  | [] => true
  | _ :: _ => false
  end.

(** The name under which a parameter is forwarded: its name, or its
    type text when it has none. *)
Definition callName (p : Descriptor) : string :=
  match fst p with
  | Some name => name
  | None => snd p
  end.

(** A type with its pointer markers and array lengths removed, at
    every depth the namer reaches. *)
Fixpoint erase (expr : ast.Expr) : ast.Expr :=
  let fields (l : option ast.FieldList) :=
    match l with
    | None => None
    | Some fs =>
        Some (map (fun f => match f with
                            | ast.mkField names ty => ast.mkField names (erase ty)
                            end) fs)
    end in
  match expr with
  | ast.StarExpr X => erase X
  | ast.ArrayType _ Elt => ast.ArrayType None (erase Elt)
  | ast.MapType Key Value => ast.MapType (erase Key) (erase Value)
  | ast.FuncType Params Results => ast.FuncType (fields Params) (fields Results)
  | _ => expr
  end.

(** A field list with an unnamed field of a node kind the namer has
    no case for. *)
Definition hasUnnamedUnsupported (l : option ast.FieldList) : bool :=
  match l with
  | None => false
  | Some fs =>
      existsb (fun f => match ast.Names f with
                        | [] => negb (ast.supported (ast.Type_ f))
                        | _ :: _ => false
                        end) fs
  end.

(** A method with such a field among its parameters or results. *)
Definition unnamedUnsupported (method : ast.Field) : bool :=
  match ast.Type_ method with
  | ast.FuncType Params Results => hasUnnamedUnsupported Params || hasUnnamedUnsupported Results
  | _ => false
  end.

(** The interfaces the generator visits, each with the names its mock
    name is taken from: the declared name of a named interface type,
    the names of an interface-typed struct field. *)
Definition Target : Type := (list string * ast.FieldList)%type.

Definition fieldTargets (field : ast.Field) : list Target :=
  match ast.Type_ field with
  | ast.InterfaceType methods => [(ast.Names field, methods)]
  | _ => []
  end.

Definition specTargets (spec : ast.Spec) : list Target :=
  match spec with
  | ast.TypeSpec Name (ast.InterfaceType methods) => [([Name], methods)]
  | ast.TypeSpec _ (ast.StructType fields) => flat_map fieldTargets fields
  | _ => []
  end.

Definition declTargets (decl : ast.Decl) : list Target :=
  match decl with
  | ast.GenDecl _ specs => flat_map specTargets specs
  | _ => []
  end.

Definition targets (decls : list ast.Decl) : list Target :=
  flat_map declTargets decls.

(** The mocks of a list of targets, one after the other. *)
Fixpoint targetsMocks (ts : list Target) : result (list Mocks) :=
  match ts with
  | [] => Ok []
  | (names, methods) :: ts' =>
      first <- index names 0 ;;
      methods' <- getMethodsFromInterface methods (first ++ "Mock") ;;
      rest <- targetsMocks ts' ;;
      Ok ({| MockName := first ++ "Mock"; Methods := methods' |} :: rest)
  end.

(** A mock made for a target: named after the target's first name,
    with one method per declared method. *)
Definition mockOf (m : Mocks) (t : Target) : Prop :=
  exists first,
    hd_error (fst t) = Some first
    /\ MockName m = first ++ "Mock"
    /\ length (Methods m) = length (snd t).

(* ================================================================= *)
(** ** Further vocabulary and sample inputs *)

(** The namer on [expr]: a text when the qualifiers are identifiers,
    the nil dereference when one is not. *)
Definition namerOutcome (expr : ast.Expr) : Prop :=
  if qualifiersAreIdents expr
  then exists s, getTypeName expr = Ok s
  else getTypeName expr = Panic NilPointerDereference.

Definition fieldsQualified (l : option ast.FieldList) : bool :=
  match l with
  | None => true
  | Some fs =>
      forallb (fun f => match f with ast.mkField _ ty => qualifiersAreIdents ty end) fs
  end.

(** [map[string]func(a.b.C)]: a qualified name whose qualifier is
    itself qualified, inside a function type inside a map. *)
Definition nestedQualifier : ast.Expr :=
  ast.MapType (ast.Ident "string")
    (ast.FuncType
       (Some [ast.mkField []
                (ast.SelectorExpr (ast.SelectorExpr (ast.Ident "a") "b") "C")])
       None).

(** [Watch(id int) (chan string, error)] *)
Definition MethodChanResult : ast.Field :=
  ast.mkField ["Watch"]
    (ast.FuncType (Some [named "id" "int"])
                  (Some [ast.mkField [] (ast.ChanType (ast.Ident "string")); unnamed "error"])).

Definition chanResultCode : string :=
  "type watcher interface { Watch(id int) (chan string, error) }".

Definition chanResultFile : ast.File := interfaceFile "watcher" [MethodChanResult].

(** The embedded [io.Reader] *)
Definition EmbeddedReader : ast.Field :=
  ast.mkField [] (ast.SelectorExpr (ast.Ident "io") "Reader").

Definition embeddedCode : string :=
  "type readCloser interface { io.Reader; Close(force bool) error }".

Definition embeddedFile : ast.File :=
  interfaceFile "readCloser"
    [EmbeddedReader; method "Close" [named "force" "bool"] [unnamed "error"]].

Definition noInterfaceCode : string :=
  text [ "const limit = 3";
         "type point struct { x, y int }";
         "func origin() point { return point{} }" ].

Definition noInterfaceFile : ast.File :=
  ast.mkFile "main"
    [ ast.GenDecl ast.CONST [ast.ValueSpec ["limit"]];
      ast.GenDecl ast.TYPE
        [ast.TypeSpec "point" (ast.StructType [ast.mkField ["x"; "y"] (ast.Ident "int")])];
      ast.FuncDecl "origin" ].

(** A parser that knows the source texts of a table. *)
Definition parserOfTable (table : list (string * ast.File)) : Parser :=
  fun s =>
    match find (fun entry => (s =? fst entry)%string) table with
    | Some entry => inl (snd entry)
    | None => inr (errorString "syntax error")
    end.

Definition biduleAmongOthersCode : string :=
  text [ "import " ++ DQUOTE ++ "fmt" ++ DQUOTE;
         "type (";
         "size int";
         "bidule interface { Method1(arg1 string, arg2 int) (string, error) }";
         ")";
         "func hello() { fmt.Println(size(0)) }" ].

Definition biduleAmongOthersFile : ast.File :=
  ast.mkFile "main"
    [ ast.GenDecl ast.IMPORT [ast.ImportSpec "fmt"];
      ast.GenDecl ast.TYPE
        [ ast.TypeSpec "size" (ast.Ident "int");
          ast.TypeSpec "bidule" (ast.InterfaceType [Method1]) ];
      ast.FuncDecl "hello" ].

Definition closerCode : string := "type closer interface { Close(force bool) error }".

Definition closerFile : ast.File :=
  interfaceFile "closer" [method "Close" [named "force" "bool"] [unnamed "error"]].

Definition closerBlocks : string :=
  text [ "";
         "type closerMock struct {";
         TAB ++ "mock.Mock";
         "}";
         "";
         "func (m *closerMock) Close(force bool) (error) {";
         TAB ++ "args := m.Called(force)";
         TAB ++ "return args.Get(0).(error)";
         "}";
         "" ].

Definition nothingBlocks : string := emptyBlock "nothing".

Definition bothCode : string := text [closerCode; emptyInterfaceCode].

Definition bothFile : ast.File :=
  ast.mkFile "main" (ast.Decls closerFile ++ ast.Decls emptyInterfaceFile).

(** A terminal as standard output; [os.Create] accepts every path. *)
Definition terminalEnv (args : list string) (path : string) (parse : Parser) : Env :=
  {| Args := args;
     StdoutMode := Some (Z.lor os.ModeCharDevice 400);
     Create := fun _ => None;
     FlagParse := fun _ => inl path;
     Parse := parse |}.

(** A pipe as standard output; [os.Create] refuses every path. *)
Definition pipeEnv (args : list string) (path : string) (parse : Parser) : Env :=
  {| Args := args;
     StdoutMode := Some (Z.shiftl 1 25);
     Create := fun _ => Some (errorString "permission denied");
     FlagParse := fun _ => inl path;
     Parse := parse |}.

(** A method with a name, at least one parameter and at least one
    result, all of them plain fields. *)
Definition plainMethod (method : ast.Field) : bool :=
  match ast.Names method, ast.Type_ method with
  | _ :: _, ast.FuncType (Some (p :: ps)) (Some (r :: rs)) =>
      forallb plainField (p :: ps) && forallb plainField (r :: rs)
  | _, _ => false
  end.

(** A target with a name whose methods are all plain. *)
Definition plainTarget (t : Target) : bool :=
  match fst t with
  | [] => false
  | _ :: _ => forallb plainMethod (snd t)
  end.

(* ================================================================= *)
(** ** The [result] monad *)

Lemma bind_Ok_r (A : Type) (m : result A) : (x <- m ;; Ok x) = m.
Proof. destruct m; reflexivity. Qed.

Lemma bind_isOk_false (A B : Type) (m : result A) (k : A -> result B) :
  (forall a, isOk (k a) = false) -> isOk (x <- m ;; k x) = false.
Proof. intros H. destruct m; simpl; auto. Qed.

Lemma bind_isOk_l (A B : Type) (m : result A) (k : A -> result B) :
  isOk m = false -> isOk (x <- m ;; k x) = false.
Proof. destruct m; simpl; [discriminate | reflexivity]. Qed.

Lemma isOk_false_Panic (A : Type) (m : result A) :
  isOk m = false -> exists p, m = Panic p.
Proof. destruct m; simpl; intros H; [discriminate | eauto]. Qed.

(* ================================================================= *)
(** ** Byte strings *)

Lemma append_nil_r (s : string) : s ++ "" = s.
Proof. induction s; simpl; congruence. Qed.

Lemma append_assoc (a b c : string) : (a ++ b) ++ c = a ++ b ++ c.
Proof. induction a; simpl; congruence. Qed.

Lemma prefix_cons (a b : ascii) (s t : string) :
  prefix (String a s) (String b t) = Ascii.eqb a b && prefix s t.
Proof.
  simpl. destruct (ascii_dec a b) as [->|Hne].
  - now rewrite Ascii.eqb_refl.
  - apply Ascii.eqb_neq in Hne. now rewrite Hne.
Qed.

(* ================================================================= *)
(** ** White space and [strings.Fields] *)

(** An ASCII byte after [a] does not change what starts at the head
    of [a]: every later byte of a white space character is above 127. *)
Lemma spaceWidth_app_ascii (a : string) (c : ascii) (b : string) :
  a <> "" -> (N_of_ascii c < 128)%N ->
  strings.spaceWidth (a ++ String c b) = strings.spaceWidth a.
Proof.
  intros Ha Hc.
  assert (E : forall k, (128 <= k)%N -> (N_of_ascii c =? k)%N = false)
    by (intros k Hk; apply N.eqb_neq; lia).
  assert (L : forall k, (128 <= k)%N -> (k <=? N_of_ascii c)%N = false)
    by (intros k Hk; apply N.leb_gt; lia).
  destruct a as [|c0 [|c1 [|c2 r]]]; [congruence | | | reflexivity].
  - change (String c0 "" ++ String c b) with (String c0 (String c b)).
    cbn [strings.spaceWidth].
    destruct (strings.isAsciiSpace c0); [reflexivity|].
    rewrite !E by lia. cbn [orb andb].
    destruct b; [reflexivity|].
    rewrite !andb_false_r. reflexivity.
  - change (String c0 (String c1 "") ++ String c b)
      with (String c0 (String c1 (String c b))).
    cbn [strings.spaceWidth].
    destruct (strings.isAsciiSpace c0); [reflexivity|].
    destruct (_ && _)%bool; [reflexivity|].
    rewrite !E, !L by lia. reflexivity.
Qed.

(** The run of non-space bytes at the head of [n ++ " " ++ t]. *)
Lemma fieldsFrom_name_space (n t : string) :
  strings.noSpace n = true ->
  strings.fieldsFrom (n ++ String " " t) 0
  = (n, strings.pushField (strings.fieldsFrom t 0)).
Proof.
  induction n as [|c n IH]; intros Hn.
  - reflexivity.
  - cbn [strings.noSpace] in Hn. apply andb_true_iff in Hn as [Hw Hn].
    apply Nat.eqb_eq in Hw.
    change (String c n ++ String " " t) with (String c (n ++ String " " t)).
    cbn [strings.fieldsFrom].
    change (String c (n ++ String " " t)) with (String c n ++ String " " t).
    rewrite spaceWidth_app_ascii by (try discriminate; cbv; reflexivity).
    rewrite Hw, IH by assumption. reflexivity.
Qed.

Lemma fieldsFrom_token (t : string) :
  strings.noSpace t = true -> strings.fieldsFrom t 0 = (t, []).
Proof.
  induction t as [|c t IH]; intros Ht.
  - reflexivity.
  - cbn [strings.noSpace] in Ht. apply andb_true_iff in Ht as [Hw Ht].
    apply Nat.eqb_eq in Hw.
    cbn [strings.fieldsFrom]. rewrite Hw, IH by assumption. reflexivity.
Qed.

Lemma isToken_inv (s : string) :
  isToken s = true -> s <> "" /\ strings.noSpace s = true.
Proof.
  unfold isToken. intros H. apply andb_true_iff in H as [H1 H2].
  split; [|assumption].
  apply negb_true_iff, String.eqb_neq in H1. assumption.
Qed.

Lemma isName_inv (s : string) :
  isName s = true -> s <> "" /\ strings.noSpace s = true /\ noComma s = true.
Proof.
  unfold isName. intros H. apply andb_true_iff in H as [H1 H2].
  apply isToken_inv in H1. tauto.
Qed.

Lemma pushField_nonempty (s : string) (l : list string) :
  s <> "" -> strings.pushField (s, l) = s :: l.
Proof.
  intros H. unfold strings.pushField. simpl.
  apply String.eqb_neq in H. now rewrite H.
Qed.

Lemma Fields_token (t : string) : isToken t = true -> strings.Fields t = [t].
Proof.
  intros H. apply isToken_inv in H as [H1 H2].
  unfold strings.Fields. rewrite fieldsFrom_token by assumption.
  now apply pushField_nonempty.
Qed.

Lemma Fields_name_space (n t : string) :
  isToken n = true -> strings.Fields (n ++ " " ++ t) = n :: strings.Fields t.
Proof.
  intros H. apply isToken_inv in H as [H1 H2].
  unfold strings.Fields. simpl append.
  rewrite fieldsFrom_name_space by assumption.
  now apply pushField_nonempty.
Qed.

Lemma noSpace_app_ascii (a : string) (c : ascii) (b : string) :
  (N_of_ascii c < 128)%N ->
  strings.noSpace a = true -> strings.noSpace (String c b) = true ->
  strings.noSpace (a ++ String c b) = true.
Proof.
  intros Hc Ha Hb. induction a as [|d a IH]; [exact Hb|].
  cbn [strings.noSpace] in Ha. apply andb_true_iff in Ha as [Hw Ha].
  change (String d a ++ String c b) with (String d (a ++ String c b)).
  cbn [strings.noSpace].
  change (String d (a ++ String c b)) with (String d a ++ String c b).
  rewrite spaceWidth_app_ascii by (assumption || discriminate).
  now rewrite Hw, IH.
Qed.

Lemma noSpace_cons_ascii (c : ascii) (s : string) :
  (N_of_ascii c < 128)%N -> strings.isAsciiSpace c = false ->
  strings.noSpace s = true -> strings.noSpace (String c s) = true.
Proof.
  intros Hc Hsp H. cbn [strings.noSpace]. rewrite H, andb_true_r. apply Nat.eqb_eq.
  assert (E : forall k, (128 <= k)%N -> (N_of_ascii c =? k)%N = false)
    by (intros k Hk; apply N.eqb_neq; lia).
  destruct s as [|c1 [|c2 r]]; cbn [strings.spaceWidth]; rewrite Hsp; try reflexivity.
  - rewrite !E by lia. now rewrite andb_false_r.
  - rewrite !E by lia. now rewrite !andb_false_r.
Qed.

Lemma noSpace_dot (s : string) :
  strings.noSpace s = true -> strings.noSpace (String "." s) = true.
Proof. apply noSpace_cons_ascii; reflexivity. Qed.

Lemma qualified_isToken (pkg Name : string) :
  strings.noSpace pkg = true -> strings.noSpace Name = true ->
  isToken (pkg ++ "." ++ Name) = true.
Proof.
  intros Hp Hn. unfold isToken. apply andb_true_iff. split.
  - apply negb_true_iff, String.eqb_neq. destruct pkg; discriminate.
  - apply noSpace_app_ascii; [reflexivity | assumption | now apply noSpace_dot].
Qed.

(* ================================================================= *)
(** ** [strings.Split] after [strings.Join] *)

Lemma prefix_nil (s : string) : prefix "" s = true.
Proof. destruct s; reflexivity. Qed.

Lemma Contains_cons (c : ascii) (s sub : string) :
  strings.Contains (String c s) sub = prefix sub (String c s) || strings.Contains s sub.
Proof. reflexivity. Qed.

Lemma Contains_cons_false (c : ascii) (s sub : string) :
  strings.Contains (String c s) sub = false ->
  prefix sub (String c s) = false /\ strings.Contains s sub = false.
Proof. rewrite Contains_cons. apply orb_false_iff. Qed.

(** The separator cannot start inside a piece and end in the separator
    that follows the piece: its two bytes differ. *)
Lemma prefix_sep_app (c : ascii) (e r : string) :
  prefix ", " (String c e) = false ->
  prefix ", " (String c (e ++ String "," r)) = false.
Proof.
  rewrite !prefix_cons. destruct (Ascii.eqb "," c); [|reflexivity].
  cbn [andb]. destruct e as [|d e]; [reflexivity|].
  cbn [append]. rewrite !prefix_cons, !prefix_nil. trivial.
Qed.

Lemma splitFrom_piece (e : string) :
  strings.Contains e ", " = false -> strings.splitFrom ", " e 0 = (e, []).
Proof.
  induction e as [|c e IH]; intros H; [reflexivity|].
  apply Contains_cons_false in H as [Hp Hc].
  cbn [strings.splitFrom]. rewrite Hp, IH by assumption. reflexivity.
Qed.

Lemma splitFrom_piece_sep (e rest : string) :
  strings.Contains e ", " = false ->
  strings.splitFrom ", " (e ++ ", " ++ rest) 0 = (e, strings.Split rest ", ").
Proof.
  induction e as [|c e IH]; intros H.
  - change ("" ++ ", " ++ rest) with (String "," (String " " rest)).
    cbn [strings.splitFrom]. rewrite !prefix_cons, prefix_nil. reflexivity.
  - apply Contains_cons_false in H as [Hp Hc].
    change (String c e ++ ", " ++ rest) with (String c (e ++ String "," (String " " rest))).
    cbn [strings.splitFrom]. rewrite (prefix_sep_app _ _ _ Hp).
    change (e ++ String "," (String " " rest)) with (e ++ ", " ++ rest).
    rewrite IH by assumption. reflexivity.
Qed.

(** Splitting the joined text gives the pieces back when no piece
    holds the separator. *)
Lemma Split_Join (elems : list string) :
  elems <> [] ->
  Forall (fun e => strings.Contains e ", " = false) elems ->
  strings.Split (strings.Join elems ", ") ", " = elems.
Proof.
  induction elems as [|e rest IH]; intros Hne Hall; [congruence|].
  inversion Hall as [|? ? He Hrest]; subst.
  destruct rest as [|e' rest'].
  - unfold strings.Split. cbn [strings.Join].
    rewrite splitFrom_piece by assumption. reflexivity.
  - unfold strings.Split at 1.
    change (strings.Join (e :: e' :: rest') ", ")
      with (e ++ ", " ++ strings.Join (e' :: rest') ", ").
    rewrite splitFrom_piece_sep by assumption.
    cbn [fst snd]. rewrite IH by (assumption || discriminate). reflexivity.
Qed.

(** A string without white space holds no separator. *)
Lemma noSpace_no_sep (t : string) :
  strings.noSpace t = true -> strings.Contains t ", " = false.
Proof.
  induction t as [|c t IH]; intros H; [reflexivity|].
  cbn [strings.noSpace] in H. apply andb_true_iff in H as [_ H].
  rewrite Contains_cons, IH by assumption.
  rewrite prefix_cons. destruct (Ascii.eqb "," c); [|reflexivity].
  destruct t as [|d t]; [reflexivity|].
  rewrite prefix_cons, prefix_nil.
  destruct (Ascii.eqb_spec " " d) as [<-|]; [discriminate H | reflexivity].
Qed.

(** A name, a blank and a type text hold a separator only if the type
    text does. *)
Lemma name_space_no_sep (n t : string) :
  noComma n = true ->
  strings.Contains t ", " = false ->
  strings.Contains (n ++ " " ++ t) ", " = false.
Proof.
  intros Hn Ht. induction n as [|c n IH].
  - cbn [append]. rewrite Contains_cons, Ht. reflexivity.
  - cbn [noComma] in Hn. apply andb_true_iff in Hn as [Hc Hn].
    change (String c n ++ " " ++ t) with (String c (n ++ " " ++ t)).
    rewrite Contains_cons, IH by assumption.
    rewrite prefix_cons. rewrite Ascii.eqb_sym.
    apply negb_true_iff in Hc. rewrite Hc. reflexivity.
Qed.

(* ================================================================= *)
(** ** Signature extraction *)

Lemma namedParameters_Ok (t : string) (names : list string) :
  namedParameters (Ok t) names = Ok (map (fun name => name ++ " " ++ t) names).
Proof.
  induction names as [|n names IH]; [reflexivity|].
  cbn [namedParameters bind]. rewrite IH. reflexivity.
Qed.

Lemma fieldParameters_cons (names : list string) (ty : ast.Expr) (fields : list ast.Field) :
  fieldParameters getTypeName (ast.mkField names ty :: fields)
  = (t <- getTypeName ty ;;
     params <- fieldParameters getTypeName fields ;;
     Ok (fieldEntries names t ++ params)%list).
Proof.
  cbn [fieldParameters].
  destruct (getTypeName ty) as [t|p]; destruct names as [|n names]; try reflexivity.
  cbn [bind]. rewrite namedParameters_Ok. reflexivity.
Qed.

Lemma fieldParameters_app (a b : list ast.Field) :
  fieldParameters getTypeName (a ++ b)
  = (pa <- fieldParameters getTypeName a ;;
     pb <- fieldParameters getTypeName b ;;
     Ok (pa ++ pb)%list).
Proof.
  induction a as [|[names ty] a IH].
  - cbn [app fieldParameters bind]. now rewrite bind_Ok_r.
  - change ((ast.mkField names ty :: a) ++ b)%list with (ast.mkField names ty :: (a ++ b))%list.
    rewrite !fieldParameters_cons, IH.
    destruct (getTypeName ty); [|reflexivity]. cbn [bind].
    destruct (fieldParameters getTypeName a); [|reflexivity]. cbn [bind].
    destruct (fieldParameters getTypeName b); [|reflexivity]. cbn [bind].
    now rewrite app_assoc.
Qed.

Lemma fieldEntries_render (names : list string) (t : string) :
  fieldEntries names t
  = map renderDescriptor
        (match names with
         | [] => [(None, t)]
         | _ :: _ => map (fun name => (Some name, t)) names
         end).
Proof.
  destruct names as [|n names]; [reflexivity|].
  unfold fieldEntries. rewrite map_map. reflexivity.
Qed.

(** The code's parameter rendering is the rendering of the
    specification's descriptors. *)
Lemma fieldParameters_signature (fields : list ast.Field) :
  fieldParameters getTypeName fields
  = (sig <- signature fields ;; Ok (map renderDescriptor sig)).
Proof.
  induction fields as [|[names ty] fields IH]; [reflexivity|].
  rewrite fieldParameters_cons, IH. cbn [signature].
  destruct (getTypeName ty); [|reflexivity]. cbn [bind].
  destruct (signature fields); [|reflexivity]. cbn [bind].
  now rewrite map_app, fieldEntries_render.
Qed.

Lemma getParameters_signature (fields : list ast.Field) (sig : list Descriptor) :
  signature fields = Ok sig ->
  getParameters (Some fields) = Ok (strings.Join (map renderDescriptor sig) ", ").
Proof.
  intros H. unfold getParameters, getParametersWith.
  now rewrite fieldParameters_signature, H.
Qed.

Lemma fieldParameters_around (before after : list ast.Field) (names : list string)
      (ty : ast.Expr) (t : string) (eb ea : list string) :
  fieldParameters getTypeName before = Ok eb ->
  getTypeName ty = Ok t ->
  fieldParameters getTypeName after = Ok ea ->
  getParameters (Some (before ++ ast.mkField names ty :: after)%list)
  = Ok (strings.Join (eb ++ fieldEntries names t ++ ea)%list ", ").
Proof.
  intros Hb Ht Ha. unfold getParameters, getParametersWith.
  now rewrite fieldParameters_app, fieldParameters_cons, Hb, Ht, Ha.
Qed.

(* ================================================================= *)
(** ** Deriving names and types back from the rendered text *)

Lemma index_first_token (entry : string) :
  strings.Fields entry <> [] -> index (strings.Fields entry) 0 = Ok (firstToken entry).
Proof.
  unfold firstToken. destruct (strings.Fields entry); [congruence | reflexivity].
Qed.

Lemma last_cons (l : list string) (a d : string) : last (a :: l) d = last l a.
Proof.
  revert a d. induction l as [|b l IH]; intros a d; [reflexivity|].
  change (last (a :: b :: l) d) with (last (b :: l) d).
  change (last (b :: l) a) with (last (b :: l) a).
  now rewrite (IH b d), (IH b a).
Qed.

Lemma indexLast_last_token (entry : string) :
  strings.Fields entry <> [] -> getTypeNameFromString entry = Ok (lastToken entry).
Proof.
  unfold getTypeNameFromString, lastToken.
  destruct (strings.Fields entry) as [|a l]; [congruence|]. intros _.
  cbn [indexLast]. now rewrite last_cons.
Qed.

Lemma argumentNames_Ok (params : list string) :
  Forall (fun e => strings.Fields e <> []) params ->
  argumentNames params = Ok (map firstToken params).
Proof.
  induction 1 as [|e params He _ IH]; [reflexivity|].
  cbn [argumentNames]. rewrite index_first_token, IH by assumption. reflexivity.
Qed.

Lemma returnNamesFrom_Ok (returnNames : list string) (i : nat) :
  Forall (fun e => strings.Fields e <> []) returnNames ->
  returnNamesFrom i returnNames = Ok (extractions i (map lastToken returnNames)).
Proof.
  intros H. revert i. induction H as [|e l He _ IH]; intros i; [reflexivity|].
  cbn [returnNamesFrom]. rewrite indexLast_last_token, IH by assumption. reflexivity.
Qed.

Lemma splitSafe_Contains (entries : list string) :
  Forall splitSafe entries -> Forall (fun e => strings.Contains e ", " = false) entries.
Proof. apply Forall_impl. intros e [H _]. exact H. Qed.

Lemma splitSafe_Fields (entries : list string) :
  Forall splitSafe entries -> Forall (fun e => strings.Fields e <> []) entries.
Proof. apply Forall_impl. intros e [_ H]. exact H. Qed.

Lemma getArgumentNames_Join (entries : list string) :
  entries <> [] -> Forall splitSafe entries ->
  getArgumentNames (strings.Join entries ", ")
  = Ok (strings.Join (map firstToken entries) ", ").
Proof.
  intros Hne H. unfold getArgumentNames.
  rewrite Split_Join by auto using splitSafe_Contains.
  rewrite argumentNames_Ok by auto using splitSafe_Fields. reflexivity.
Qed.

Lemma getReturnNames_Join (entries : list string) :
  entries <> [] -> Forall splitSafe entries ->
  getReturnNames (strings.Join entries ", ")
  = Ok (strings.Join (extractions 0 (map lastToken entries)) ", ").
Proof.
  intros Hne H. unfold getReturnNames.
  rewrite Split_Join by auto using splitSafe_Contains.
  rewrite returnNamesFrom_Ok by auto using splitSafe_Fields. reflexivity.
Qed.

Lemma named_entry (n t : string) :
  isName n = true -> strings.Contains t ", " = false ->
  splitSafe (n ++ " " ++ t) /\ firstToken (n ++ " " ++ t) = n.
Proof.
  intros Hn Ht. destruct (isName_inv _ Hn) as (Hne & Hsp & Hco).
  assert (Htok : isToken n = true)
    by (unfold isName in Hn; now apply andb_true_iff in Hn).
  unfold splitSafe, firstToken. rewrite Fields_name_space by assumption.
  repeat split; [now apply name_space_no_sep | discriminate].
Qed.

Lemma named_entry_last (n t : string) :
  isName n = true -> isToken t = true -> lastToken (n ++ " " ++ t) = t.
Proof.
  intros Hn Ht.
  assert (Htok : isToken n = true)
    by (unfold isName in Hn; now apply andb_true_iff in Hn).
  unfold lastToken. rewrite Fields_name_space, Fields_token by assumption. reflexivity.
Qed.

Lemma token_entry (t : string) :
  isToken t = true -> splitSafe t /\ firstToken t = t /\ lastToken t = t.
Proof.
  intros Ht. destruct (isToken_inv _ Ht) as [Hne Hsp].
  unfold splitSafe, firstToken, lastToken. rewrite Fields_token by assumption.
  repeat split; [now apply noSpace_no_sep | discriminate].
Qed.

Lemma plainDescriptor_entry (p : Descriptor) :
  plainDescriptor p = true ->
  splitSafe (renderDescriptor p) /\ lastToken (renderDescriptor p) = snd p.
Proof.
  destruct p as [[n|] t]; unfold plainDescriptor; cbn [fst snd renderDescriptor];
    intros H; apply andb_true_iff in H as [Hn Ht].
  - split; [|now apply named_entry_last].
    apply named_entry; [assumption|].
    apply noSpace_no_sep. now apply isToken_inv in Ht.
  - destruct (token_entry _ Ht) as (H1 & _ & H3). now split.
Qed.

Lemma plain_entries (sig : list Descriptor) :
  forallb plainDescriptor sig = true ->
  Forall splitSafe (map renderDescriptor sig)
  /\ map lastToken (map renderDescriptor sig) = map snd sig.
Proof.
  induction sig as [|p sig IH]; intros H; [split; [constructor | reflexivity]|].
  cbn [forallb] in H. apply andb_true_iff in H as [Hp H].
  destruct (IH H) as [IH1 IH2]. destruct (plainDescriptor_entry _ Hp) as [H1 H2].
  split; [now constructor|]. cbn [map]. now rewrite H2, IH2.
Qed.


Lemma fieldEntries_not_nil (names : list string) (t : string) : fieldEntries names t <> [].
Proof. destruct names; discriminate. Qed.

Lemma named_entries (names : list string) (t : string) :
  forallb isName names = true -> strings.Contains t ", " = false ->
  Forall splitSafe (map (fun name => name ++ " " ++ t) names)
  /\ map firstToken (map (fun name => name ++ " " ++ t) names) = names.
Proof.
  intros Hn Ht. induction names as [|n names IH]; [split; [constructor | reflexivity]|].
  cbn [forallb] in Hn. apply andb_true_iff in Hn as [Hn Hl].
  destruct (IH Hl) as [IH1 IH2]. destruct (named_entry n t Hn Ht) as [H1 H2].
  cbn [map]. split; [now constructor | now rewrite H2, IH2].
Qed.

Lemma extractions_length (i : nat) (types : list string) :
  length (extractions i types) = length types.
Proof. revert i. induction types; intros i; simpl; auto. Qed.

Lemma extractions_nth (types : list string) (i k : nat) (t : string) :
  nth_error types k = Some t ->
  nth_error (extractions i types) k
  = Some ("args.Get(" ++ fmt.Itoa (i + k) ++ ").(" ++ t ++ ")").
Proof.
  revert i k. induction types as [|u types IH]; intros i k H.
  - destruct k; discriminate.
  - destruct k as [|k]; cbn [nth_error extractions] in *.
    + injection H as ->. now rewrite Nat.add_0_r.
    + rewrite (IH (S i) k H). now rewrite Nat.add_succ_comm.
Qed.

(* ================================================================= *)
(** ** Methods on which the assembly panics *)

Lemma methodData_emptyParameterList (mockName : string) (method : ast.Field) :
  emptyParameterList method = true -> isOk (methodData mockName method) = false.
Proof.
  destruct method as [names ty]. unfold emptyParameterList, methodData.
  cbn [ast.Type_ ast.Names]. intros H.
  destruct (index names 0) as [methodName|]; [|reflexivity]. cbn [bind].
  destruct ty as [| | | | | | | | | |Params Results| | |]; try discriminate H.
  assert (E : getParameters Params = Ok "")
    by (destruct Params as [[|f fs]|]; [reflexivity | discriminate H | reflexivity]).
  rewrite E. cbn [bind].
  destruct (getParameters Results); reflexivity.
Qed.

Lemma methodData_noResults (mockName : string) (method : ast.Field) :
  noResults method = true -> isOk (methodData mockName method) = false.
Proof.
  destruct method as [names ty]. unfold noResults, methodData.
  cbn [ast.Type_ ast.Names]. intros H.
  destruct (index names 0) as [methodName|]; [|reflexivity]. cbn [bind].
  destruct ty as [| | | | | | | | | |Params Results| | |]; try discriminate H.
  assert (E : getParameters Results = Ok "")
    by (destruct Results as [[|f fs]|]; [reflexivity | discriminate H | reflexivity]).
  rewrite E.
  destruct (getParameters Params) as [paramList|]; [|reflexivity]. cbn [bind].
  destruct (getArgumentNames paramList); reflexivity.
Qed.

Lemma methodsOf_panics (mockName : string) (methods : list ast.Field) (method : ast.Field) :
  In method methods -> panics method -> isOk (methodsOf mockName methods) = false.
Proof.
  intros Hin Hp. induction methods as [|m methods IH]; [contradiction|].
  cbn [methodsOf]. destruct Hin as [E|Hin].
  - subst m. apply bind_isOk_l, Hp.
  - apply bind_isOk_false. intros ?. apply bind_isOk_l. auto.
Qed.

Lemma structMocks_panics (fields : list ast.Field) (methods : ast.FieldList) (method : ast.Field) :
  In methods (flat_map fieldInterfaces fields) -> In method methods -> panics method ->
  isOk (structMocks fields) = false.
Proof.
  intros Hin Hm Hp. induction fields as [|[names ty] fields IH]; [contradiction|].
  cbn [flat_map] in Hin. apply in_app_or in Hin.
  cbn [structMocks ast.Type_ ast.Names].
  destruct Hin as [Hin|Hin].
  - unfold fieldInterfaces in Hin. cbn [ast.Type_] in Hin.
    destruct ty; try contradiction.
    destruct Hin as [->|[]].
    apply bind_isOk_l, bind_isOk_false. intros first.
    apply bind_isOk_l. unfold getMethodsFromInterface.
    eapply methodsOf_panics; eassumption.
  - apply bind_isOk_false. intros ?. apply bind_isOk_l. auto.
Qed.

Lemma specMocks_panics (spec : ast.Spec) (methods : ast.FieldList) (method : ast.Field) :
  In methods (specInterfaces spec) -> In method methods -> panics method ->
  isOk (specMocks spec) = false.
Proof.
  intros Hin Hm Hp. destruct spec as [| |Name ty]; try contradiction.
  destruct ty; try contradiction; cbn [specInterfaces specMocks] in *.
  - eapply structMocks_panics; eassumption.
  - destruct Hin as [->|[]]. apply bind_isOk_l. unfold getMethodsFromInterface.
    eapply methodsOf_panics; eassumption.
Qed.

Lemma specsMocks_panics (specs : list ast.Spec) (methods : ast.FieldList) (method : ast.Field) :
  In methods (flat_map specInterfaces specs) -> In method methods -> panics method ->
  isOk (specsMocks specs) = false.
Proof.
  intros Hin Hm Hp. induction specs as [|spec specs IH]; [contradiction|].
  cbn [flat_map] in Hin. apply in_app_or in Hin. cbn [specsMocks].
  destruct Hin as [Hin|Hin].
  - apply bind_isOk_l. eapply specMocks_panics; eassumption.
  - apply bind_isOk_false. intros ?. apply bind_isOk_l. auto.
Qed.

Lemma declsMocks_panics (decls : list ast.Decl) (methods : ast.FieldList) (method : ast.Field) :
  In methods (flat_map declInterfaces decls) -> In method methods -> panics method ->
  isOk (declsMocks decls) = false.
Proof.
  intros Hin Hm Hp. induction decls as [|decl decls IH]; [contradiction|].
  cbn [flat_map] in Hin. apply in_app_or in Hin. cbn [declsMocks].
  destruct Hin as [Hin|Hin].
  - apply bind_isOk_l. destruct decl as [|Tok specs|]; try contradiction.
    eapply specsMocks_panics; eassumption.
  - apply bind_isOk_false. intros ?. apply bind_isOk_l. auto.
Qed.

(** A panic during assembly ends the call before anything is written. *)
Lemma interfaceToMock_panics (ParseFile : Parser) (writer : Writer) (interfaceCode : string)
      (node : ast.File) (methods : ast.FieldList) (method : ast.Field) :
  ParseFile ("package main" ++ LF ++ interfaceCode) = inl node ->
  In methods (visitedInterfaces node) -> In method methods -> panics method ->
  exists p, interfaceToMock ParseFile writer interfaceCode = (writer, Panic p).
Proof.
  intros Hparse Hin Hm Hp. unfold interfaceToMock. rewrite Hparse.
  destruct (isOk_false_Panic _ _ (declsMocks_panics _ _ _ Hin Hm Hp)) as [p ->].
  now exists p.
Qed.

(* ================================================================= *)
(** ** Rendering *)

Lemma concat_cons (x : string) (l : list string) :
  String.concat "" (x :: l) = x ++ String.concat "" l.
Proof. destruct l; cbn [String.concat]; [now rewrite append_nil_r | reflexivity]. Qed.

Lemma concat_app (a b : list string) :
  String.concat "" (a ++ b) = String.concat "" a ++ String.concat "" b.
Proof.
  induction a as [|x a IH]; [reflexivity|].
  change ((x :: a) ++ b)%list with (x :: (a ++ b))%list.
  now rewrite !concat_cons, IH, append_assoc.
Qed.

Lemma specsMocks_app (a b : list ast.Spec) :
  specsMocks (a ++ b)
  = (ma <- specsMocks a ;; mb <- specsMocks b ;; Ok (ma ++ mb)%list).
Proof.
  induction a as [|spec a IH].
  - cbn [app specsMocks bind]. now rewrite bind_Ok_r.
  - change ((spec :: a) ++ b)%list with (spec :: (a ++ b))%list.
    cbn [specsMocks]. rewrite IH.
    destruct (specMocks spec); [|reflexivity]. cbn [bind].
    destruct (specsMocks a); [|reflexivity]. cbn [bind].
    destruct (specsMocks b); [|reflexivity]. cbn [bind].
    now rewrite app_assoc.
Qed.

Lemma declsMocks_app (a b : list ast.Decl) :
  declsMocks (a ++ b)
  = (ma <- declsMocks a ;; mb <- declsMocks b ;; Ok (ma ++ mb)%list).
Proof.
  induction a as [|decl a IH].
  - cbn [app declsMocks bind]. now rewrite bind_Ok_r.
  - change ((decl :: a) ++ b)%list with (decl :: (a ++ b))%list.
    cbn [declsMocks]. rewrite IH.
    destruct (match decl with ast.GenDecl _ specs => specsMocks specs | _ => Ok [] end);
      [|reflexivity]. cbn [bind].
    destruct (declsMocks a); [|reflexivity]. cbn [bind].
    destruct (declsMocks b); [|reflexivity]. cbn [bind].
    now rewrite app_assoc.
Qed.

(** A call whose assembly succeeds on a healthy sink appends the
    rendered template to it. *)
Lemma interfaceToMock_Ok (ParseFile : Parser) (writer : Writer) (interfaceCode : string)
      (node : ast.File) (mocks : list Mocks) :
  ParseFile ("package main" ++ LF ++ interfaceCode) = inl node ->
  declsMocks (ast.Decls node) = Ok mocks ->
  err writer = None ->
  interfaceToMock ParseFile writer interfaceCode
  = ({| written := written writer ++ mockTemplate {| Mocks_ := mocks |}; err := None |},
     Ok None).
Proof.
  intros Hparse Hmocks Herr. unfold interfaceToMock, Execute.
  now rewrite Hparse, Hmocks, Herr.
Qed.

(* ================================================================= *)
(** ** The type namer on every node kind *)

(** Induction along the recursion of [getTypeName]. *)
Lemma Expr_namer_ind (P : ast.Expr -> Prop) :
  (forall X, P X -> P (ast.StarExpr X)) ->
  (forall Len Elt, P Elt -> P (ast.ArrayType Len Elt)) ->
  (forall Key Value, P Key -> P Value -> P (ast.MapType Key Value)) ->
  (forall Params Results,
      fieldsAll P Params -> fieldsAll P Results -> P (ast.FuncType Params Results)) ->
  (forall expr,
      match expr with
      | ast.StarExpr _ | ast.ArrayType _ _ | ast.MapType _ _ | ast.FuncType _ _ => False
      | _ => True
      end -> P expr) ->
  forall expr, P expr.
Proof.
  intros HS HA HM HF HO. fix IH 1. intros expr.
  destruct expr as [| | | | | | |X|Len Elt|fs|Params Results|ms|Key Value|V];
    try (apply HO; exact I).
  - apply HS, IH.
  - apply HA, IH.
  - apply HF.
    + destruct Params as [fs|]; [|exact I]. cbn [fieldsAll].
      induction fs as [|[names ty] fs IHfs]; constructor; [apply IH | exact IHfs].
    + destruct Results as [fs|]; [|exact I]. cbn [fieldsAll].
      induction fs as [|[names ty] fs IHfs]; constructor; [apply IH | exact IHfs].
  - apply HM; apply IH.
Qed.

Lemma fieldParameters_total (fs : list ast.Field) :
  Forall (fun f => exists s, getTypeName (ast.Type_ f) = Ok s) fs ->
  exists l, fieldParameters getTypeName fs = Ok l.
Proof.
  induction 1 as [|[names ty] fs [t Ht] _ [l IH]]; [now exists []|].
  cbn [ast.Type_] in Ht. rewrite fieldParameters_cons, Ht, IH. cbn [bind]. eauto.
Qed.

Lemma getParameters_total (l : option ast.FieldList) :
  fieldsAll (fun e => exists s, getTypeName e = Ok s) l ->
  exists s, getParameters l = Ok s.
Proof.
  destruct l as [fs|]; [|now exists ""]. cbn [fieldsAll]. intros H.
  destruct (fieldParameters_total _ H) as [l Hl].
  unfold getParameters, getParametersWith. rewrite Hl. cbn [bind]. eauto.
Qed.

Lemma getFunctionSignature_total (Params Results : option ast.FieldList) :
  fieldsAll (fun e => exists s, getTypeName e = Ok s) Params ->
  fieldsAll (fun e => exists s, getTypeName e = Ok s) Results ->
  exists s, getFunctionSignature Params Results = Ok s.
Proof.
  intros HP HR.
  destruct (getParameters_total _ HP) as [p Hp].
  destruct (getParameters_total _ HR) as [r Hr].
  unfold getFunctionSignature, getFunctionSignatureWith.
  fold getParameters. rewrite Hp, Hr.
  destruct Params, Results; cbn [bind]; eauto.
Qed.

Lemma fieldsAll_qualifiers (P : ast.Expr -> Prop) (l : option ast.FieldList) :
  fieldsAll (fun e => qualifiersAreIdents e = true -> P e) l ->
  match l with
  | None => true
  | Some fs => forallb (fun f => match f with ast.mkField _ ty => qualifiersAreIdents ty end) fs
  end = true ->
  fieldsAll P l.
Proof.
  destruct l as [fs|]; [|trivial]. cbn [fieldsAll].
  induction 1 as [|[names ty] fs Hf _ IH]; intros H; constructor;
    cbn [forallb] in H; apply andb_true_iff in H as [H1 H2]; auto.
Qed.

(** On the types the parser builds the namer always returns. *)
Lemma getTypeName_total (expr : ast.Expr) :
  qualifiersAreIdents expr = true -> exists s, getTypeName expr = Ok s.
Proof.
  induction expr as [X IH|Len Elt IH|Key Value IHk IHv|Params Results IHp IHr|expr Hk]
    using Expr_namer_ind; intros H.
  - destruct (IH H) as [s Hs]. cbn [getTypeName]. rewrite Hs. cbn [bind]. eauto.
  - destruct (IH H) as [s Hs]. cbn [getTypeName]. rewrite Hs. cbn [bind]. eauto.
  - cbn [qualifiersAreIdents] in H. apply andb_true_iff in H as [H1 H2].
    destruct (IHk H1) as [k Hk]. destruct (IHv H2) as [v Hv].
    cbn [getTypeName]. rewrite Hk, Hv. cbn [bind]. eauto.
  - cbn [qualifiersAreIdents] in H. apply andb_true_iff in H as [H1 H2].
    destruct (getFunctionSignature_total Params Results) as [s Hs];
      [now apply fieldsAll_qualifiers | now apply fieldsAll_qualifiers |].
    change (getTypeName (ast.FuncType Params Results))
      with (s <- getFunctionSignature Params Results ;; Ok ("func" ++ s)).
    rewrite Hs. cbn [bind]. eauto.
  - destruct expr as [|n| | | |X Sel| | | | | | | |]; try contradiction;
      try (now eexists; reflexivity).
    cbn [qualifiersAreIdents] in H. destruct X; try discriminate H.
    now eexists.
Qed.

(* ================================================================= *)
(** ** Plain types *)

(** The text of a plain type is one token. *)
Lemma plainType_token (expr : ast.Expr) :
  plainType expr = true -> exists t, getTypeName expr = Ok t /\ isToken t = true.
Proof.
  induction expr as [X IH|Len Elt IH|Key Value IHk IHv|Params Results _ _|expr Hk]
    using Expr_namer_ind; intros H.
  - destruct (IH H) as (t & Ht & Htok). exists t. cbn [getTypeName].
    now rewrite Ht.
  - destruct (IH H) as (t & Ht & Htok). exists ("[]" ++ t). cbn [getTypeName].
    rewrite Ht. split; [reflexivity|].
    apply isToken_inv in Htok as [_ Hsp]. unfold isToken. cbn [append String.eqb negb andb].
    now repeat (apply noSpace_cons_ascii; [reflexivity | reflexivity |]).
  - cbn [plainType] in H. apply andb_true_iff in H as [H1 H2].
    destruct (IHk H1) as (k & Hk & Hktok). destruct (IHv H2) as (v & Hv & Hvtok).
    exists ("map[" ++ k ++ "]" ++ v). cbn [getTypeName]. rewrite Hk, Hv.
    split; [reflexivity|].
    apply isToken_inv in Hktok as [_ Hksp]. apply isToken_inv in Hvtok as [_ Hvsp].
    unfold isToken. cbn [append String.eqb negb andb].
    repeat (apply noSpace_cons_ascii; [reflexivity | reflexivity |]).
    apply noSpace_app_ascii; [reflexivity | assumption |].
    now apply noSpace_cons_ascii.
  - discriminate H.
  - destruct expr as [|n| | | |X Sel| | | | | |ms| |]; try contradiction;
      try discriminate H.
    + exists n. now split.
    + destruct X as [|pkg| | | | | | | | | | | |]; try discriminate H.
      cbn [plainType] in H. apply andb_true_iff in H as [H1 H2].
      exists (pkg ++ "." ++ Sel). split; [reflexivity | now apply qualified_isToken].
    + exists "interface{}". now split.
Qed.

(** Plain result fields have plain descriptors. *)
Lemma plain_fields_signature (fields : list ast.Field) :
  forallb plainField fields = true ->
  exists sig, signature fields = Ok sig
              /\ forallb plainDescriptor sig = true
              /\ (fields <> [] -> sig <> []).
Proof.
  induction fields as [|[names ty] fields IH]; intros H.
  - exists []. repeat split. congruence.
  - cbn [forallb] in H. apply andb_true_iff in H as [Hf H].
    unfold plainField in Hf. cbn [ast.Names ast.Type_] in Hf.
    apply andb_true_iff in Hf as [Hn Ht].
    destruct (plainType_token _ Ht) as (t & Hty & Htok).
    destruct (IH H) as (sig & Hsig & Hplain & _).
    cbn [signature]. rewrite Hty, Hsig. cbn [bind]. eexists. split; [reflexivity|].
    split.
    + rewrite forallb_app. apply andb_true_iff. split; [|exact Hplain].
      destruct names as [|n names].
      * cbn [forallb]. unfold plainDescriptor. cbn [fst snd]. now rewrite Htok.
      * rewrite forallb_forall. intros p Hin. apply in_map_iff in Hin as (x & <- & Hx).
        unfold plainDescriptor. cbn [fst snd]. rewrite Htok, andb_true_r.
        rewrite forallb_forall in Hn. now apply Hn.
    + intros _ E. apply app_eq_nil in E as [E _].
      destruct names; discriminate E.
Qed.

(* ================================================================= *)
(** ** Methods without results (C1) *)

(** C1.  The specification asks that a method declared with zero
    results be generated with a call-recording statement and no return
    statement.  The code does not get that far: the result list renders
    to the empty text, [getReturnNames] splits it into one empty piece
    and takes the last token of no tokens, so every call that visits
    such a method panics (index out of range) and writes nothing. *)
Theorem zero_results_panic :
  (getParameters None = Ok ""
   /\ strings.Split "" ", " = [""]
   /\ getTypeNameFromString "" = Panic (IndexOutOfRange (-1) 0)
   /\ getReturnNames "" = Panic (IndexOutOfRange (-1) 0))
  /\ forall (ParseFile : Parser) (writer : Writer) (interfaceCode : string)
            (node : ast.File) (methods : ast.FieldList) (method : ast.Field),
      ParseFile ("package main" ++ LF ++ interfaceCode) = inl node ->
      In methods (visitedInterfaces node) ->
      In method methods ->
      noResults method = true ->
      exists p, interfaceToMock ParseFile writer interfaceCode = (writer, Panic p).
Proof.
  split; [repeat split|].
  intros ParseFile writer interfaceCode node methods method Hparse Hin Hm Hno.
  eapply interfaceToMock_panics; try eassumption.
  intros mockName. now apply methodData_noResults.
Qed.

Lemma zero_results_panic_witness :
  let ParseFile := parserOf ("package main" ++ LF ++ noResultCode) noResultFile in
  ParseFile ("package main" ++ LF ++ noResultCode) = inl noResultFile
  /\ In [MethodNoResult] (visitedInterfaces noResultFile)
  /\ In MethodNoResult [MethodNoResult]
  /\ noResults MethodNoResult = true
  /\ exists p, interfaceToMock ParseFile NewWriter noResultCode = (NewWriter, Panic p).
Proof.
  intros ParseFile.
  assert (H1 : ParseFile ("package main" ++ LF ++ noResultCode) = inl noResultFile)
    by reflexivity.
  assert (H2 : In [MethodNoResult] (visitedInterfaces noResultFile)) by (left; reflexivity).
  assert (H3 : In MethodNoResult [MethodNoResult]) by (left; reflexivity).
  assert (H4 : noResults MethodNoResult = true) by reflexivity.
  split; [exact H1|]. split; [exact H2|]. split; [exact H3|]. split; [exact H4|].
  exact (proj2 zero_results_panic ParseFile NewWriter noResultCode noResultFile
               [MethodNoResult] MethodNoResult H1 H2 H3 H4).
Defined.

(** The panic at [noResultCode] is the index -1 of an empty slice. *)
Example zero_results_panic_at_M :
  interfaceToMock (parserOf ("package main" ++ LF ++ noResultCode) noResultFile)
                  NewWriter noResultCode
  = (NewWriter, Panic (IndexOutOfRange (-1) 0)).
Proof. reflexivity. Qed.

(* ================================================================= *)
(** ** One extraction per result (C2) *)

(** C2, as the code has it.  For a method with R >= 1 declared results
    whose names are names and whose rendered types are single tokens,
    the return statement holds exactly R extraction expressions, the
    i-th being [args.Get(i)] cast to the rendered type of the i-th
    result, in declared order. *)
Theorem return_statement_extractions (results : list ast.Field) (sig : list Descriptor) :
  signature results = Ok sig ->
  sig <> [] ->
  forallb plainDescriptor sig = true ->
  let types := map snd sig in
  let returnList := strings.Join (map renderDescriptor sig) ", " in
  let returnNames := strings.Join (extractions 0 types) ", " in
  getParameters (Some results) = Ok returnList
  /\ getReturnNames returnList = Ok returnNames
  /\ length (extractions 0 types) = length sig
  /\ (forall i t,
         nth_error types i = Some t ->
         nth_error (extractions 0 types) i
         = Some ("args.Get(" ++ fmt.Itoa i ++ ").(" ++ t ++ ")"))
  /\ forall (mockName methodName : string) (names : list string)
            (Params : option ast.FieldList) (paramList argNames : string),
      getParameters Params = Ok paramList ->
      getArgumentNames paramList = Ok argNames ->
      methodData mockName
                 (ast.mkField (methodName :: names) (ast.FuncType Params (Some results)))
      = Ok {| MethodCode :=
                formatMethod mockName methodName paramList returnList argNames returnNames |}.
Proof.
  intros Hsig Hne Hplain types returnList returnNames.
  destruct (plain_entries _ Hplain) as [Hsafe Hlast].
  assert (Hnil : map renderDescriptor sig <> [])
    by (destruct sig; [congruence | discriminate]).
  assert (Hp : getParameters (Some results) = Ok returnList)
    by now apply getParameters_signature.
  assert (Hr : getReturnNames returnList = Ok returnNames).
  { unfold returnList, returnNames, types.
    rewrite getReturnNames_Join by assumption. now rewrite Hlast. }
  split; [exact Hp|]. split; [exact Hr|]. split; [|split].
  - unfold types. now rewrite extractions_length, length_map.
  - intros i t Hi. now rewrite (extractions_nth types 0 i t Hi).
  - intros mockName methodName names Params paramList argNames HP HA.
    unfold methodData. cbn [ast.Names ast.Type_ index nth_error bind].
    rewrite HP. cbn [bind]. rewrite Hp. cbn [bind]. rewrite HA. cbn [bind].
    rewrite Hr. reflexivity.
Qed.

Lemma return_statement_extractions_witness :
  let sig := [(Some "ret1", "foo.Bar"); (Some "err", "error")] in
  signature packResults = Ok sig
  /\ sig <> []
  /\ forallb plainDescriptor sig = true
  /\ getParameters (Some packResults) = Ok "ret1 foo.Bar, err error"
  /\ getReturnNames "ret1 foo.Bar, err error"
     = Ok "args.Get(0).(foo.Bar), args.Get(1).(error)".
Proof.
  intros sig.
  assert (H1 : signature packResults = Ok sig) by reflexivity.
  assert (H2 : sig <> []) by discriminate.
  assert (H3 : forallb plainDescriptor sig = true) by reflexivity.
  split; [exact H1|]. split; [exact H2|]. split; [exact H3|].
  destruct (return_statement_extractions packResults sig H1 H2 H3) as (H4 & H5 & _).
  split; [exact H4 | exact H5].
Defined.

(** C2 as stated fails: the one result [func(a, b int)] gives the two
    extractions [args.Get(0).(int), args.Get(1).(int))], and a method
    without results gives none because the call panics. *)
Lemma return_statement_counterexample :
  (signature funcResults = Ok [(None, "func(a int, b int)")]
   /\ getReturnNames "func(a int, b int)" = Ok "args.Get(0).(int), args.Get(1).(int))"
   /\ ~ extractionPerResult (Some funcResults))
  /\ (getReturnNames "" = Panic (IndexOutOfRange (-1) 0)
      /\ ~ extractionPerResult None).
Proof.
  split; (split; [reflexivity|]).
  - split; [reflexivity|].
    intros (sig & returnList & Hsig & Hp & Hr).
    vm_compute in Hsig, Hp. injection Hsig as <-. injection Hp as <-.
    vm_compute in Hr. discriminate Hr.
  - intros (sig & returnList & Hsig & Hp & Hr).
    vm_compute in Hp. injection Hp as <-. vm_compute in Hr. discriminate Hr.
Qed.

(* ================================================================= *)
(** ** The end-to-end scenario (C3) *)

(** C3.  On [type bidule interface { Method1(arg1 string, arg2 int)
    (string, error) }] the call succeeds: one mock [biduleMock] with
    the one method [Method1] is assembled, and the sink receives the
    fixed header, the struct embedding [mock.Mock] and the method whose
    body records [arg1, arg2] and returns [args.Get(0).(string),
    args.Get(1).(error)]. *)
Theorem bidule_scenario (ParseFile : Parser) (writer : Writer) :
  ParseFile ("package main" ++ LF ++ biduleCode) = inl biduleFile ->
  err writer = None ->
  declsMocks (ast.Decls biduleFile)
  = Ok [ {| MockName := "biduleMock";
            Methods := [ {| MethodCode :=
              "func (m *biduleMock) Method1(arg1 string, arg2 int) (string, error) {" ++ LF
                ++ TAB ++ "args := m.Called(arg1, arg2)" ++ LF
                ++ TAB ++ "return args.Get(0).(string), args.Get(1).(error)" ++ LF
                ++ "}" |} ] |} ]
  /\ interfaceToMock ParseFile writer biduleCode
     = ({| written := written writer ++ biduleOutput; err := None |}, Ok None).
Proof.
  intros Hparse Herr. split; [reflexivity|].
  now rewrite (interfaceToMock_Ok _ _ _ biduleFile _ Hparse eq_refl Herr).
Qed.

Lemma bidule_scenario_witness :
  let ParseFile := parserOf ("package main" ++ LF ++ biduleCode) biduleFile in
  ParseFile ("package main" ++ LF ++ biduleCode) = inl biduleFile
  /\ err NewWriter = None
  /\ interfaceToMock ParseFile NewWriter biduleCode
     = ({| written := biduleOutput; err := None |}, Ok None).
Proof.
  intros ParseFile.
  assert (H1 : ParseFile ("package main" ++ LF ++ biduleCode) = inl biduleFile)
    by reflexivity.
  assert (H2 : err NewWriter = None) by reflexivity.
  split; [exact H1|]. split; [exact H2|].
  exact (proj2 (bidule_scenario ParseFile NewWriter H1 H2)).
Defined.

(* ================================================================= *)
(** ** Parse errors (C4) *)

(** C4.  When the wrapped input does not parse, the call returns the
    parse error (wrapped under [parser.ParseFile: ]) and the sink is
    what it was before the call. *)
Theorem parse_error_writes_nothing
        (ParseFile : Parser) (writer : Writer) (interfaceCode : string) (e : error) :
  ParseFile ("package main" ++ LF ++ interfaceCode) = inr e ->
  interfaceToMock ParseFile writer interfaceCode
  = (writer, Ok (Some (fmt.Errorf_w "parser.ParseFile: " e)))
  /\ written (fst (interfaceToMock ParseFile writer interfaceCode)) = written writer.
Proof.
  intros Hparse. unfold interfaceToMock. rewrite Hparse. split; reflexivity.
Qed.

Lemma parse_error_writes_nothing_witness :
  let ParseFile := parserOf ("package main" ++ LF ++ biduleCode) biduleFile in
  let broken := "type bidule interface {" in
  ParseFile ("package main" ++ LF ++ broken) = inr (errorString "syntax error")
  /\ interfaceToMock ParseFile NewWriter broken
     = (NewWriter,
        Ok (Some (wrapError "parser.ParseFile: syntax error" (errorString "syntax error"))))
  /\ written (fst (interfaceToMock ParseFile NewWriter broken)) = "".
Proof.
  intros ParseFile broken.
  assert (H : ParseFile ("package main" ++ LF ++ broken) = inr (errorString "syntax error"))
    by reflexivity.
  split; [exact H|].
  exact (parse_error_writes_nothing ParseFile NewWriter broken (errorString "syntax error") H).
Defined.

(* ================================================================= *)
(** ** Pointer types (C7) *)

(** C7.  A pointer type renders as its pointee: [getTypeName] of [*T]
    is [getTypeName] of [T], so a parameter or result list renders the
    same text whether a field's type is [*T] or [T]. *)
Theorem pointer_renders_as_pointee (T : ast.Expr) :
  getTypeName (ast.StarExpr T) = getTypeName T
  /\ forall (names : list string) (before after : list ast.Field),
      getParameters (Some (before ++ ast.mkField names (ast.StarExpr T) :: after)%list)
      = getParameters (Some (before ++ ast.mkField names T :: after)%list).
Proof.
  assert (E : getTypeName (ast.StarExpr T) = getTypeName T).
  { cbn [getTypeName]. destruct (getTypeName T); reflexivity. }
  split; [exact E|].
  intros names before after. unfold getParameters, getParametersWith.
  now rewrite !fieldParameters_app, !fieldParameters_cons, E.
Qed.

(* ================================================================= *)
(** ** Unsupported node kinds (C8) *)

(** C8.  The type namer returns on every node kind: a node outside the
    supported kinds (identifier, qualified name, pointer, slice, map,
    inline interface, function type) renders to the empty string, an
    inline interface renders to [interface{}], and on every type whose
    qualified names have an identifier as qualifier (all the parser
    builds) the namer returns a text and never panics. *)
Theorem type_namer_total (expr : ast.Expr) :
  (ast.supported expr = false -> getTypeName expr = Ok "")
  /\ (forall methods, getTypeName (ast.InterfaceType methods) = Ok "interface{}")
  /\ (qualifiersAreIdents expr = true -> exists s, getTypeName expr = Ok s).
Proof.
  split; [|split].
  - destruct expr; try discriminate; reflexivity.
  - reflexivity.
  - apply getTypeName_total.
Qed.

Lemma type_namer_total_witness :
  let expr := ast.ChanType (ast.Ident "int") in
  ast.supported expr = false
  /\ qualifiersAreIdents expr = true
  /\ getTypeName expr = Ok ""
  /\ exists s, getTypeName expr = Ok s.
Proof.
  intros expr.
  assert (H1 : ast.supported expr = false) by reflexivity.
  assert (H2 : qualifiersAreIdents expr = true) by reflexivity.
  split; [exact H1|]. split; [exact H2|]. split.
  - exact (proj1 (type_namer_total expr) H1).
  - exact (proj2 (proj2 (type_namer_total expr)) H2).
Defined.

(* ================================================================= *)
(** ** Interfaces without methods (C9) *)

(** C9.  A named interface declaration with zero methods yields the
    mock [<Name>Mock] with an empty method list, which renders as the
    struct block embedding [mock.Mock] with no method after it; when the
    declarations around it are assembled too, the call succeeds and the
    block stands in the output at the declaration's place. *)
Theorem zero_method_interface (Name : string) :
  getMethodsFromInterface [] (Name ++ "Mock") = Ok []
  /\ specMocks (ast.TypeSpec Name (ast.InterfaceType []))
     = Ok [ {| MockName := Name ++ "Mock"; Methods := [] |} ]
  /\ renderMock {| MockName := Name ++ "Mock"; Methods := [] |} = emptyBlock Name
  /\ forall (ParseFile : Parser) (writer : Writer) (interfaceCode : string)
            (node : ast.File) (Tok : ast.Token)
            (earlier later : list ast.Decl) (before after : list ast.Spec)
            (me mb ma ml : list Mocks),
      ParseFile ("package main" ++ LF ++ interfaceCode) = inl node ->
      ast.Decls node
      = (earlier
           ++ ast.GenDecl Tok (before ++ ast.TypeSpec Name (ast.InterfaceType []) :: after)
           :: later)%list ->
      declsMocks earlier = Ok me ->
      specsMocks before = Ok mb ->
      specsMocks after = Ok ma ->
      declsMocks later = Ok ml ->
      err writer = None ->
      interfaceToMock ParseFile writer interfaceCode
      = ({| written :=
              written writer ++ mockHeader
                ++ String.concat "" (map renderMock (me ++ mb))
                ++ emptyBlock Name
                ++ String.concat "" (map renderMock (ma ++ ml));
            err := None |},
         Ok None).
Proof.
  split; [reflexivity|]. split; [reflexivity|]. split; [reflexivity|].
  intros ParseFile writer interfaceCode node Tok earlier later before after
         me mb ma ml Hparse Hdecls He Hb Ha Hl Herr.
  set (mock := {| MockName := Name ++ "Mock"; Methods := [] |}).
  assert (Hm : declsMocks (ast.Decls node) = Ok ((me ++ mb) ++ mock :: (ma ++ ml))%list).
  { rewrite Hdecls, declsMocks_app, He. cbn [bind declsMocks].
    rewrite specsMocks_app, Hb. cbn [bind specsMocks specMocks].
    unfold getMethodsFromInterface. cbn [methodsOf bind].
    rewrite Ha, Hl. cbn [bind]. fold mock.
    now rewrite <- !app_assoc. }
  rewrite (interfaceToMock_Ok _ _ _ _ _ Hparse Hm Herr).
  unfold mockTemplate. cbn [Mocks_].
  rewrite map_app, concat_app. cbn [map]. rewrite concat_cons.
  change (renderMock mock) with (emptyBlock Name).
  reflexivity.
Qed.

Lemma zero_method_interface_witness :
  let ParseFile := parserOf ("package main" ++ LF ++ emptyInterfaceCode) emptyInterfaceFile in
  ParseFile ("package main" ++ LF ++ emptyInterfaceCode) = inl emptyInterfaceFile
  /\ ast.Decls emptyInterfaceFile
     = ([] ++ ast.GenDecl ast.TYPE
                 ([] ++ ast.TypeSpec "nothing" (ast.InterfaceType []) :: []) :: [])%list
  /\ declsMocks [] = Ok []
  /\ specsMocks [] = Ok []
  /\ err NewWriter = None
  /\ interfaceToMock ParseFile NewWriter emptyInterfaceCode
     = ({| written := mockHeader ++ emptyBlock "nothing"; err := None |}, Ok None).
Proof.
  intros ParseFile.
  assert (H1 : ParseFile ("package main" ++ LF ++ emptyInterfaceCode) = inl emptyInterfaceFile)
    by reflexivity.
  assert (H2 : ast.Decls emptyInterfaceFile
               = ([] ++ ast.GenDecl ast.TYPE
                         ([] ++ ast.TypeSpec "nothing" (ast.InterfaceType []) :: []) :: [])%list)
    by reflexivity.
  assert (H3 : declsMocks [] = Ok []) by reflexivity.
  assert (H4 : specsMocks [] = Ok []) by reflexivity.
  assert (H5 : err NewWriter = None) by reflexivity.
  split; [exact H1|]. split; [exact H2|]. split; [exact H3|]. split; [exact H4|].
  split; [exact H5|].
  exact (proj2 (proj2 (proj2 (zero_method_interface "nothing")))
               ParseFile NewWriter emptyInterfaceCode emptyInterfaceFile ast.TYPE
               [] [] [] [] [] [] [] [] H1 H2 H3 H4 H4 H3 H5).
Defined.

(* ================================================================= *)
(** ** Methods without parameters (C10) *)

(** C10.  The call does not return when a visited interface has a
    method declared with an empty parameter list: the parameter list
    renders to the empty text, [getArgumentNames] splits it into one
    empty piece and indexes the first token of no tokens, so the call
    panics (index out of range) and nothing is written. *)
Theorem empty_parameter_list_aborts :
  (getParameters (Some []) = Ok ""
   /\ strings.Split "" ", " = [""]
   /\ strings.Fields "" = []
   /\ getArgumentNames "" = Panic (IndexOutOfRange 0 0))
  /\ forall (ParseFile : Parser) (writer : Writer) (interfaceCode : string)
            (node : ast.File) (methods : ast.FieldList) (method : ast.Field),
      ParseFile ("package main" ++ LF ++ interfaceCode) = inl node ->
      In methods (visitedInterfaces node) ->
      In method methods ->
      emptyParameterList method = true ->
      exists p, interfaceToMock ParseFile writer interfaceCode = (writer, Panic p).
Proof.
  split; [repeat split|].
  intros ParseFile writer interfaceCode node methods method Hparse Hin Hm Hempty.
  eapply interfaceToMock_panics; try eassumption.
  intros mockName. now apply methodData_emptyParameterList.
Qed.

Lemma empty_parameter_list_aborts_witness :
  let ParseFile := parserOf ("package main" ++ LF ++ noParameterCode) noParameterFile in
  ParseFile ("package main" ++ LF ++ noParameterCode) = inl noParameterFile
  /\ In [MethodNoParameter] (visitedInterfaces noParameterFile)
  /\ In MethodNoParameter [MethodNoParameter]
  /\ emptyParameterList MethodNoParameter = true
  /\ exists p, interfaceToMock ParseFile NewWriter noParameterCode = (NewWriter, Panic p).
Proof.
  intros ParseFile.
  assert (H1 : ParseFile ("package main" ++ LF ++ noParameterCode) = inl noParameterFile)
    by reflexivity.
  assert (H2 : In [MethodNoParameter] (visitedInterfaces noParameterFile))
    by (left; reflexivity).
  assert (H3 : In MethodNoParameter [MethodNoParameter]) by (left; reflexivity).
  assert (H4 : emptyParameterList MethodNoParameter = true) by reflexivity.
  split; [exact H1|]. split; [exact H2|]. split; [exact H3|]. split; [exact H4|].
  exact (proj2 empty_parameter_list_aborts ParseFile NewWriter noParameterCode
               noParameterFile [MethodNoParameter] MethodNoParameter H1 H2 H3 H4).
Defined.

(** The panic at [noParameterCode] is the index 0 of an empty slice. *)
Example empty_parameter_list_panic_at_Close :
  interfaceToMock (parserOf ("package main" ++ LF ++ noParameterCode) noParameterFile)
                  NewWriter noParameterCode
  = (NewWriter, Panic (IndexOutOfRange 0 0)).
Proof. reflexivity. Qed.

(* ================================================================= *)
(** ** The repository's test cases *)

Example Test_interfaceToMock_classic : passes classicCode classicFile classicExpected.
Proof. vm_compute. reflexivity. Qed.

Example Test_interfaceToMock_classic_2 : passes classic2Code classic2File classic2Expected.
Proof. vm_compute. reflexivity. Qed.

Example Test_interfaceToMock_named_returned :
  passes namedReturnedCode namedReturnedFile namedReturnedExpected.
Proof. vm_compute. reflexivity. Qed.

Example Test_interfaceToMock_reused_type :
  passes reusedTypeCode reusedTypeFile reusedTypeExpected.
Proof. vm_compute. reflexivity. Qed.

Example Test_interfaceToMock_pack : passes packCode packFile packExpected.
Proof. vm_compute. reflexivity. Qed.

(* ================================================================= *)
(** ** More on [strings.Fields] and [strings.Split] *)

(** What starts at the head of a string is decided by its first bytes. *)
Lemma spaceWidth_prefix (a b : string) :
  strings.spaceWidth (a ++ b) = 0 -> strings.spaceWidth a = 0.
Proof.
  destruct a as [|c0 [|c1 [|c2 r]]]; intros H.
  - reflexivity.
  - change (String c0 "" ++ b) with (String c0 b) in H.
    cbn [strings.spaceWidth] in *.
    destruct (strings.isAsciiSpace c0); [discriminate H | reflexivity].
  - change (String c0 (String c1 "") ++ b) with (String c0 (String c1 b)) in H.
    cbn [strings.spaceWidth] in *.
    destruct (strings.isAsciiSpace c0); [discriminate H|].
    destruct (_ && _)%bool; [discriminate H | reflexivity].
  - exact H.
Qed.

Lemma fieldsFrom_prefix (s : string) :
  exists r, s = fst (strings.fieldsFrom s 0) ++ r.
Proof.
  induction s as [|c s [r IH]]; [now exists ""|].
  cbn [strings.fieldsFrom].
  destruct (strings.spaceWidth (String c s)).
  - exists r. cbn [fst append]. now rewrite <- IH.
  - now exists (String c s).
Qed.

Lemma pushField_tokens (p : string * list string) :
  strings.noSpace (fst p) = true ->
  Forall (fun t => isToken t = true) (snd p) ->
  Forall (fun t => isToken t = true) (strings.pushField p).
Proof.
  intros H1 H2. unfold strings.pushField.
  destruct (String.eqb_spec (fst p) ""); [assumption|].
  constructor; [|assumption].
  unfold isToken. rewrite H1, andb_true_r.
  now apply negb_true_iff, String.eqb_neq.
Qed.

Lemma fieldsFrom_tokens (s : string) (skip : nat) :
  strings.noSpace (fst (strings.fieldsFrom s skip)) = true
  /\ Forall (fun t => isToken t = true) (snd (strings.fieldsFrom s skip)).
Proof.
  revert skip. induction s as [|c s IH]; intros skip; [split; [reflexivity | constructor]|].
  cbn [strings.fieldsFrom]. destruct skip as [|k]; [|apply IH].
  destruct (strings.spaceWidth (String c s)) eqn:Hw.
  - destruct (IH 0) as [H1 H2]. cbn [fst snd]. split; [|assumption].
    cbn [strings.noSpace]. rewrite H1, andb_true_r. apply Nat.eqb_eq.
    destruct (fieldsFrom_prefix s) as [r Hr].
    apply (spaceWidth_prefix (String c (fst (strings.fieldsFrom s 0))) r).
    cbn [append]. now rewrite <- Hr.
  - destruct (IH n) as [H1 H2]. cbn [fst snd]. split; [reflexivity|].
    now apply pushField_tokens.
Qed.

(** Every field is a token. *)
Lemma Fields_tokens (s : string) : Forall (fun t => isToken t = true) (strings.Fields s).
Proof.
  unfold strings.Fields. destruct (fieldsFrom_tokens s 0). now apply pushField_tokens.
Qed.

Lemma prefix_sep_before_sep (x y : string) :
  x <> "" -> prefix ", " (x ++ ", " ++ y) = prefix ", " x.
Proof.
  destruct x as [|c [|d x]]; intros H; [congruence| |].
  - change (String c "" ++ ", " ++ y) with (String c (String "," (String " " y))).
    rewrite !prefix_cons. cbn. now rewrite andb_false_r.
  - change (String c (String d x) ++ ", " ++ y)
      with (String c (String d (x ++ ", " ++ y))).
    now rewrite !prefix_cons, !prefix_nil.
Qed.

Lemma prefix_sep_length (c : ascii) (x : string) :
  prefix ", " (String c x) = true -> 1 <= String.length x.
Proof.
  rewrite prefix_cons. destruct x; [|cbn [String.length]; lia].
  rewrite andb_false_r. discriminate.
Qed.

Lemma splitFrom_before_sep (x y : string) (skip : nat) :
  skip <= String.length x ->
  strings.splitFrom ", " (x ++ ", " ++ y) skip
  = (fst (strings.splitFrom ", " x skip),
     (snd (strings.splitFrom ", " x skip) ++ strings.Split y ", ")%list).
Proof.
  revert skip. induction x as [|c x IH]; intros skip Hs.
  - cbn [String.length] in Hs. replace skip with 0 by lia.
    change ("" ++ ", " ++ y) with (String "," (String " " y)).
    cbn [strings.splitFrom]. rewrite !prefix_cons, prefix_nil. reflexivity.
  - change (String c x ++ ", " ++ y) with (String c (x ++ ", " ++ y)).
    cbn [String.length] in Hs. cbn [strings.splitFrom].
    destruct skip as [|k]; [|apply IH; lia].
    change (String c (x ++ ", " ++ y)) with (String c x ++ ", " ++ y).
    rewrite prefix_sep_before_sep by discriminate.
    destruct (prefix ", " (String c x)) eqn:Hp.
    + apply prefix_sep_length in Hp.
      change (String.length ", " - 1) with 1. rewrite IH by assumption. reflexivity.
    + rewrite IH by lia. reflexivity.
Qed.

(** The pieces of two texts joined by the separator are the pieces of
    the one followed by the pieces of the other. *)
Lemma Split_before_sep (x y : string) :
  strings.Split (x ++ ", " ++ y) ", " = (strings.Split x ", " ++ strings.Split y ", ")%list.
Proof.
  unfold strings.Split at 1 2. rewrite splitFrom_before_sep by lia. reflexivity.
Qed.

Lemma Split_Join_pieces (entries : list string) :
  entries <> [] ->
  strings.Split (strings.Join entries ", ") ", "
  = flat_map (fun e => strings.Split e ", ") entries.
Proof.
  induction entries as [|e rest IH]; intros Hne; [congruence|].
  destruct rest as [|e' rest'].
  - cbn [strings.Join flat_map]. now rewrite app_nil_r.
  - change (strings.Join (e :: e' :: rest') ", ")
      with (e ++ ", " ++ strings.Join (e' :: rest') ", ").
    rewrite Split_before_sep, IH by discriminate. reflexivity.
Qed.

(* ================================================================= *)
(** ** Where the derivation of names and types succeeds *)

Lemma index_0_blank (piece : string) :
  blank piece = true -> index (strings.Fields piece) 0 = Panic (IndexOutOfRange 0 0).
Proof. unfold blank. destruct (strings.Fields piece); [reflexivity | discriminate]. Qed.

Lemma indexLast_blank (piece : string) :
  blank piece = true -> getTypeNameFromString piece = Panic (IndexOutOfRange (-1) 0).
Proof.
  unfold blank, getTypeNameFromString.
  destruct (strings.Fields piece); [reflexivity | discriminate].
Qed.

Lemma blank_false (piece : string) : blank piece = false -> strings.Fields piece <> [].
Proof. unfold blank. destruct (strings.Fields piece); [discriminate | discriminate]. Qed.

Lemma argumentNames_cases (pieces : list string) :
  if forallb (fun piece => negb (blank piece)) pieces
  then argumentNames pieces = Ok (map firstToken pieces)
  else argumentNames pieces = Panic (IndexOutOfRange 0 0).
Proof.
  induction pieces as [|e l IH]; [reflexivity|].
  cbn [forallb argumentNames]. destruct (blank e) eqn:Hb; cbn [negb andb].
  - now rewrite index_0_blank.
  - rewrite index_first_token by now apply blank_false. cbn [bind].
    destruct (forallb _ l); rewrite IH; reflexivity.
Qed.

Lemma returnNamesFrom_cases (pieces : list string) (i : nat) :
  if forallb (fun piece => negb (blank piece)) pieces
  then returnNamesFrom i pieces = Ok (extractions i (map lastToken pieces))
  else returnNamesFrom i pieces = Panic (IndexOutOfRange (-1) 0).
Proof.
  revert i. induction pieces as [|e l IH]; intros i; [reflexivity|].
  cbn [forallb returnNamesFrom]. destruct (blank e) eqn:Hb; cbn [negb andb].
  - now rewrite indexLast_blank.
  - rewrite indexLast_last_token by now apply blank_false. cbn [bind].
    specialize (IH (S i)). destruct (forallb _ l); rewrite IH; reflexivity.
Qed.

Lemma getArgumentNames_cases (paramList : string) :
  if forallb (fun piece => negb (blank piece)) (strings.Split paramList ", ")
  then getArgumentNames paramList
       = Ok (strings.Join (map firstToken (strings.Split paramList ", ")) ", ")
  else getArgumentNames paramList = Panic (IndexOutOfRange 0 0).
Proof.
  unfold getArgumentNames.
  pose proof (argumentNames_cases (strings.Split paramList ", ")) as H.
  destruct (forallb _ _); rewrite H; reflexivity.
Qed.

Lemma getReturnNames_cases (returnList : string) :
  if forallb (fun piece => negb (blank piece)) (strings.Split returnList ", ")
  then getReturnNames returnList
       = Ok (strings.Join
               (extractions 0 (map lastToken (strings.Split returnList ", "))) ", ")
  else getReturnNames returnList = Panic (IndexOutOfRange (-1) 0).
Proof.
  unfold getReturnNames.
  pose proof (returnNamesFrom_cases (strings.Split returnList ", ") 0) as H.
  destruct (forallb _ _); rewrite H; reflexivity.
Qed.

Lemma firstToken_token (piece : string) :
  blank piece = false -> isToken (firstToken piece) = true.
Proof.
  unfold blank, firstToken. pose proof (Fields_tokens piece) as H.
  destruct (strings.Fields piece) as [|t l]; [discriminate|]. intros _.
  now inversion H.
Qed.

Lemma lastToken_token (piece : string) :
  blank piece = false -> isToken (lastToken piece) = true.
Proof.
  unfold blank, lastToken. pose proof (Fields_tokens piece) as H.
  destruct (strings.Fields piece) as [|t l]; [discriminate|]. intros _.
  rewrite last_cons. revert t H. induction l as [|u l IH]; intros t H.
  - now inversion H.
  - rewrite last_cons. apply IH. now inversion H.
Qed.

Lemma tokens_of_pieces (f : string -> string) (pieces : list string) :
  (forall piece, blank piece = false -> isToken (f piece) = true) ->
  forallb (fun piece => negb (blank piece)) pieces = true ->
  Forall (fun t => isToken t = true) (map f pieces).
Proof.
  intros Hf. induction pieces as [|e l IH]; intros H; [constructor|].
  cbn [forallb] in H. apply andb_true_iff in H as [He Hl].
  apply negb_true_iff in He. cbn [map]. constructor; auto.
Qed.

Lemma plainDescriptor_callName (p : Descriptor) :
  plainDescriptor p = true -> firstToken (renderDescriptor p) = callName p.
Proof.
  destruct p as [[n|] t]; unfold plainDescriptor, callName; cbn [fst snd renderDescriptor];
    intros H; apply andb_true_iff in H as [Hn Ht].
  - apply named_entry; [assumption|]. apply noSpace_no_sep. now apply isToken_inv in Ht.
  - now destruct (token_entry _ Ht) as (_ & H2 & _).
Qed.

Lemma plain_callNames (sig : list Descriptor) :
  forallb plainDescriptor sig = true ->
  map firstToken (map renderDescriptor sig) = map callName sig.
Proof.
  induction sig as [|p sig IH]; intros H; [reflexivity|].
  cbn [forallb] in H. apply andb_true_iff in H as [Hp H].
  cbn [map]. now rewrite plainDescriptor_callName, IH.
Qed.

(** X1.  [getArgumentNames] and [getReturnNames] return on exactly the
    same texts: those none of whose pieces between [", "] is blank.
    There the first gives the first token of every piece and the
    second the extraction of the last token of every piece; on any
    other text the first panics with index 0 of an empty slice, the
    second with index -1. *)
Theorem names_and_types_same_domain (text : string) :
  let pieces := strings.Split text ", " in
  let ok := forallb (fun piece => negb (blank piece)) pieces in
  getArgumentNames text
  = (if ok then Ok (strings.Join (map firstToken pieces) ", ")
     else Panic (IndexOutOfRange 0 0))
  /\ getReturnNames text
     = (if ok then Ok (strings.Join (extractions 0 (map lastToken pieces)) ", ")
        else Panic (IndexOutOfRange (-1) 0))
  /\ isOk (getReturnNames text) = isOk (getArgumentNames text).
Proof.
  intros pieces ok.
  pose proof (getArgumentNames_cases text) as Ha.
  pose proof (getReturnNames_cases text) as Hr.
  fold pieces in Ha, Hr. fold ok in Ha, Hr.
  destruct ok; rewrite Ha, Hr; repeat split.
Qed.

(** X2.  What the derivation returns is made of tokens: every name
    [getArgumentNames] forwards and every type [getReturnNames] casts
    to is non-empty and free of white space, there is one per piece of
    the text, and the type [getTypeNameFromString] returns is its own
    derived type. *)
Theorem derived_names_are_tokens (text : string) :
  (forall argNames,
      getArgumentNames text = Ok argNames ->
      exists names,
        argNames = strings.Join names ", "
        /\ length names = length (strings.Split text ", ")
        /\ Forall (fun name => isToken name = true) names)
  /\ (forall returnNames,
         getReturnNames text = Ok returnNames ->
         exists types,
           returnNames = strings.Join (extractions 0 types) ", "
           /\ length types = length (strings.Split text ", ")
           /\ Forall (fun t => isToken t = true) types)
  /\ (forall t,
         getTypeNameFromString text = Ok t ->
         isToken t = true /\ getTypeNameFromString t = Ok t).
Proof.
  split; [|split].
  - intros argNames H. pose proof (getArgumentNames_cases text) as Hc.
    destruct (forallb _ _) eqn:Hall; [|congruence].
    exists (map firstToken (strings.Split text ", ")).
    split; [congruence|]. split; [apply length_map|].
    now apply tokens_of_pieces; [apply firstToken_token|].
  - intros returnNames H. pose proof (getReturnNames_cases text) as Hc.
    destruct (forallb _ _) eqn:Hall; [|congruence].
    exists (map lastToken (strings.Split text ", ")).
    split; [congruence|]. split; [apply length_map|].
    now apply tokens_of_pieces; [apply lastToken_token|].
  - intros t H. destruct (blank text) eqn:Hb.
    + rewrite indexLast_blank in H by assumption. discriminate.
    + rewrite indexLast_last_token in H by now apply blank_false.
      injection H as <-. pose proof (lastToken_token _ Hb) as Htok.
      split; [exact Htok|]. unfold getTypeNameFromString.
      now rewrite Fields_token.
Qed.

Lemma derived_names_are_tokens_witness :
  getArgumentNames "ctx context.Context, id int" = Ok "ctx, id"
  /\ getReturnNames "ctx context.Context, id int"
     = Ok "args.Get(0).(context.Context), args.Get(1).(int)"
  /\ getTypeNameFromString "ctx context.Context" = Ok "context.Context"
  /\ (exists names,
         "ctx, id" = strings.Join names ", "
         /\ length names = 2
         /\ Forall (fun name => isToken name = true) names)
  /\ (exists types,
         "args.Get(0).(context.Context), args.Get(1).(int)"
         = strings.Join (extractions 0 types) ", "
         /\ length types = 2
         /\ Forall (fun t => isToken t = true) types)
  /\ isToken "context.Context" = true
  /\ getTypeNameFromString "context.Context" = Ok "context.Context".
Proof.
  assert (H1 : getArgumentNames "ctx context.Context, id int" = Ok "ctx, id") by reflexivity.
  assert (H2 : getReturnNames "ctx context.Context, id int"
               = Ok "args.Get(0).(context.Context), args.Get(1).(int)") by reflexivity.
  assert (H3 : getTypeNameFromString "ctx context.Context" = Ok "context.Context")
    by reflexivity.
  split; [exact H1|]. split; [exact H2|]. split; [exact H3|].
  split; [|split].
  - exact (proj1 (derived_names_are_tokens "ctx context.Context, id int") _ H1).
  - exact (proj1 (proj2 (derived_names_are_tokens "ctx context.Context, id int")) _ H2).
  - exact (proj2 (proj2 (derived_names_are_tokens "ctx context.Context")) _ H3).
Defined.

(** X3.  Parameters whose names are names and whose type texts are
    single tokens are forwarded to the call-recording statement in
    declared order, a named one under its name and an unnamed one
    under its type text. *)
Theorem parameters_forwarded (params : list ast.Field) (sig : list Descriptor) :
  signature params = Ok sig ->
  sig <> [] ->
  forallb plainDescriptor sig = true ->
  let paramList := strings.Join (map renderDescriptor sig) ", " in
  let argNames := strings.Join (map callName sig) ", " in
  getParameters (Some params) = Ok paramList
  /\ getArgumentNames paramList = Ok argNames
  /\ forall (mockName methodName : string) (names : list string)
            (Results : option ast.FieldList) (returnList returnNames : string),
      getParameters Results = Ok returnList ->
      getReturnNames returnList = Ok returnNames ->
      methodData mockName
                 (ast.mkField (methodName :: names) (ast.FuncType (Some params) Results))
      = Ok {| MethodCode :=
                formatMethod mockName methodName paramList returnList argNames returnNames |}.
Proof.
  intros Hsig Hne Hplain paramList argNames.
  destruct (plain_entries _ Hplain) as [Hsafe _].
  assert (Hnil : map renderDescriptor sig <> [])
    by (destruct sig; [congruence | discriminate]).
  assert (Hp : getParameters (Some params) = Ok paramList)
    by now apply getParameters_signature.
  assert (Ha : getArgumentNames paramList = Ok argNames).
  { unfold paramList, argNames.
    rewrite getArgumentNames_Join by assumption. now rewrite plain_callNames. }
  split; [exact Hp|]. split; [exact Ha|].
  intros mockName methodName names Results returnList returnNames HR HN.
  unfold methodData. cbn [ast.Names ast.Type_ index nth_error bind].
  rewrite Hp. cbn [bind]. rewrite HR. cbn [bind]. rewrite Ha. cbn [bind].
  rewrite HN. reflexivity.
Qed.

Lemma parameters_forwarded_witness :
  let params := [unnamed "string"; named "n" "int"] in
  let sig := [(None, "string"); (Some "n", "int")] in
  signature params = Ok sig
  /\ sig <> []
  /\ forallb plainDescriptor sig = true
  /\ getParameters (Some params) = Ok "string, n int"
  /\ getArgumentNames "string, n int" = Ok "string, n".
Proof.
  intros params sig.
  assert (H1 : signature params = Ok sig) by reflexivity.
  assert (H2 : sig <> []) by discriminate.
  assert (H3 : forallb plainDescriptor sig = true) by reflexivity.
  split; [exact H1|]. split; [exact H2|]. split; [exact H3|].
  destruct (parameters_forwarded params sig H1 H2 H3) as (H4 & H5 & _).
  split; [exact H4 | exact H5].
Defined.

(* ================================================================= *)
(** ** More on the type namer *)

Lemma getTypeName_StarExpr (X : ast.Expr) : getTypeName (ast.StarExpr X) = getTypeName X.
Proof. cbn [getTypeName]. destruct (getTypeName X); reflexivity. Qed.

Lemma getTypeName_FuncType (Params Results : option ast.FieldList) :
  getTypeName (ast.FuncType Params Results)
  = (s <- getFunctionSignature Params Results ;; Ok ("func" ++ s)).
Proof. reflexivity. Qed.

Lemma fieldParameters_outcome (fs : ast.FieldList) :
  Forall (fun f => namerOutcome (ast.Type_ f)) fs ->
  if fieldsQualified (Some fs)
  then exists l, fieldParameters getTypeName fs = Ok l
  else fieldParameters getTypeName fs = Panic NilPointerDereference.
Proof.
  induction 1 as [|[names ty] fs Hf _ IH]; [now exists []|].
  cbn [fieldsQualified forallb] in *. rewrite fieldParameters_cons.
  unfold namerOutcome in Hf. cbn [ast.Type_] in Hf.
  destruct (qualifiersAreIdents ty); cbn [andb].
  - destruct Hf as [t ->]. cbn [bind].
    destruct (forallb _ fs).
    + destruct IH as [l ->]. cbn [bind]. eauto.
    + now rewrite IH.
  - now rewrite Hf.
Qed.

Lemma getParameters_outcome (l : option ast.FieldList) :
  fieldsAll namerOutcome l ->
  if fieldsQualified l
  then exists s, getParameters l = Ok s
  else getParameters l = Panic NilPointerDereference.
Proof.
  destruct l as [fs|]; [|now exists ""]. cbn [fieldsAll]. intros H.
  pose proof (fieldParameters_outcome fs H) as Hf.
  unfold getParameters, getParametersWith. revert Hf.
  destruct (fieldsQualified (Some fs)); intros Hf.
  - destruct Hf as [l ->]. cbn [bind]. eauto.
  - now rewrite Hf.
Qed.

Lemma getTypeName_outcome (expr : ast.Expr) : namerOutcome expr.
Proof.
  induction expr as [X IH|Len Elt IH|Key Value IHk IHv|Params Results IHp IHr|expr Hk]
    using Expr_namer_ind; unfold namerOutcome in *.
  - rewrite getTypeName_StarExpr. exact IH.
  - cbn [qualifiersAreIdents getTypeName]. revert IH.
    destruct (qualifiersAreIdents Elt); intros IH;
      [destruct IH as [s ->] | rewrite IH]; cbn [bind]; eauto.
  - cbn [qualifiersAreIdents getTypeName]. revert IHk IHv.
    destruct (qualifiersAreIdents Key); cbn [andb]; intros IHk IHv.
    + destruct IHk as [k ->]. cbn [bind]. revert IHv.
      destruct (qualifiersAreIdents Value); intros IHv;
        [destruct IHv as [v ->] | rewrite IHv]; cbn [bind]; eauto.
    + now rewrite IHk.
  - pose proof (getParameters_outcome Params IHp) as HP.
    pose proof (getParameters_outcome Results IHr) as HR.
    rewrite getTypeName_FuncType.
    change (qualifiersAreIdents (ast.FuncType Params Results))
      with (fieldsQualified Params && fieldsQualified Results).
    unfold getFunctionSignature, getFunctionSignatureWith. fold getParameters.
    revert HP HR.
    destruct (fieldsQualified Params); cbn [andb]; intros HP HR.
    + destruct HP as [p Hp].
      assert (E : exists ps, match Params with
                             | Some _ => p <- getParameters Params ;; Ok [p]
                             | None => Ok []
                             end = Ok ps)
        by (destruct Params; [rewrite Hp|]; cbn [bind]; eauto).
      destruct E as [ps ->]. cbn [bind]. revert HR.
      destruct (fieldsQualified Results); intros HR.
      * destruct HR as [r Hr].
        destruct Results; [rewrite Hr|]; cbn [bind]; eauto.
      * destruct Results as [rs|]; [|discriminate HR].
        now rewrite HR.
    + destruct Params as [ps|]; [|discriminate HP].
      now rewrite HP.
  - destruct expr as [|n| | | |X Sel| | | | | | | |]; try contradiction;
      try (now eexists; reflexivity).
    cbn [qualifiersAreIdents getTypeName].
    destruct X; try reflexivity. now eexists.
Qed.

(** X4.  The type namer returns exactly on the types in which every
    qualified name it reaches has an identifier as qualifier; on any
    other type it panics, and the panic is the nil dereference of the
    qualifier, wherever the namer reaches it (pointee, element, key,
    value, parameter or result of a function type). *)
Theorem type_namer_panics_on_qualifiers (expr : ast.Expr) :
  isOk (getTypeName expr) = qualifiersAreIdents expr
  /\ (qualifiersAreIdents expr = false -> getTypeName expr = Panic NilPointerDereference).
Proof.
  pose proof (getTypeName_outcome expr) as H. unfold namerOutcome in H.
  destruct (qualifiersAreIdents expr).
  - destruct H as [s ->]. split; [reflexivity | discriminate].
  - rewrite H. split; [reflexivity | trivial].
Qed.

Lemma type_namer_panics_on_qualifiers_witness :
  qualifiersAreIdents nestedQualifier = false
  /\ getTypeName nestedQualifier = Panic NilPointerDereference.
Proof.
  assert (H : qualifiersAreIdents nestedQualifier = false) by reflexivity.
  split; [exact H|].
  exact (proj2 (type_namer_panics_on_qualifiers nestedQualifier) H).
Defined.

Lemma fieldParameters_erase (fs : list ast.Field) :
  Forall (fun f => getTypeName (erase (ast.Type_ f)) = getTypeName (ast.Type_ f)) fs ->
  fieldParameters getTypeName
    (map (fun f => match f with
                   | ast.mkField names ty => ast.mkField names (erase ty)
                   end) fs)
  = fieldParameters getTypeName fs.
Proof.
  induction 1 as [|[names ty] fs Hf _ IH]; [reflexivity|].
  cbn [map ast.Type_] in *. now rewrite !fieldParameters_cons, Hf, IH.
Qed.

Lemma getTypeName_erase (expr : ast.Expr) : getTypeName (erase expr) = getTypeName expr.
Proof.
  induction expr as [X IH|Len Elt IH|Key Value IHk IHv|Params Results IHp IHr|expr Hk]
    using Expr_namer_ind.
  - rewrite getTypeName_StarExpr. exact IH.
  - cbn [erase getTypeName]. now rewrite IH.
  - cbn [erase getTypeName]. now rewrite IHk, IHv.
  - cbn [erase]. rewrite !getTypeName_FuncType.
    unfold getFunctionSignature, getFunctionSignatureWith, getParametersWith.
    destruct Params as [ps|], Results as [rs|]; cbn [fieldsAll] in *;
      rewrite ?fieldParameters_erase by assumption; reflexivity.
  - destruct expr; try contradiction; reflexivity.
Qed.

(** X5.  Pointer markers and array lengths are dropped at every depth:
    a type renders like the type without them, also inside slices,
    maps and the parameters and results of function types, so two
    parameter lists that differ only in them render the same text. *)
Theorem erased_type_renders_the_same (expr : ast.Expr) :
  getTypeName (erase expr) = getTypeName expr
  /\ forall (fields : list ast.Field),
      getParameters
        (Some (map (fun f => match f with
                             | ast.mkField names ty => ast.mkField names (erase ty)
                             end) fields))
      = getParameters (Some fields).
Proof.
  split; [apply getTypeName_erase|].
  intros fields. unfold getParameters, getParametersWith.
  rewrite fieldParameters_erase; [reflexivity|].
  apply Forall_forall. intros f _. apply getTypeName_erase.
Qed.

Lemma Join_app (a b : list string) (sep : string) :
  a <> [] -> b <> [] ->
  strings.Join (a ++ b) sep = strings.Join a sep ++ sep ++ strings.Join b sep.
Proof.
  intros Ha Hb. induction a as [|x a IH]; [congruence|].
  destruct a as [|y a].
  - destruct b; [congruence | reflexivity].
  - change (strings.Join ((x :: y :: a) ++ b) sep)
      with (x ++ sep ++ strings.Join ((y :: a) ++ b) sep).
    rewrite IH by discriminate.
    change (strings.Join (x :: y :: a) sep) with (x ++ sep ++ strings.Join (y :: a) sep).
    now rewrite !append_assoc.
Qed.

Lemma fieldParameters_not_nil (fs : list ast.Field) (l : list string) :
  fs <> [] -> fieldParameters getTypeName fs = Ok l -> l <> [].
Proof.
  destruct fs as [|[names ty] fs]; [congruence|]. intros _.
  rewrite fieldParameters_cons.
  destruct (getTypeName ty) as [t|]; [|discriminate]. cbn [bind].
  destruct (fieldParameters getTypeName fs); [|discriminate]. cbn [bind].
  intros H. injection H as <-. intros E. apply app_eq_nil in E as [E _].
  now apply (fieldEntries_not_nil names t).
Qed.

(** X6.  A function type renders its results inside the parentheses of
    its parameters: [func(ps) (rs)] renders like [func(ps, rs)] when
    both lists have a field, and a function type without parameters
    renders its results after a leading [", "]. *)
Theorem function_type_merges_results (ps rs : list ast.Field) :
  rs <> [] ->
  (ps <> [] ->
   getTypeName (ast.FuncType (Some ps) (Some rs))
   = getTypeName (ast.FuncType (Some (ps ++ rs)%list) None))
  /\ getTypeName (ast.FuncType (Some []) (Some rs))
     = (r <- getParameters (Some rs) ;; Ok ("func(, " ++ r ++ ")")).
Proof.
  intros Hrs. split.
  - intros Hps. rewrite !getTypeName_FuncType.
    unfold getFunctionSignature, getFunctionSignatureWith, getParametersWith.
    rewrite fieldParameters_app.
    destruct (fieldParameters getTypeName ps) as [eps|] eqn:Ep; [|reflexivity].
    destruct (fieldParameters getTypeName rs) as [ers|] eqn:Er; [|reflexivity].
    cbn [bind app strings.Join].
    rewrite (Join_app eps ers ", " (fieldParameters_not_nil ps eps Hps Ep)
                      (fieldParameters_not_nil rs ers Hrs Er)).
    reflexivity.
  - rewrite getTypeName_FuncType.
    unfold getFunctionSignature, getFunctionSignatureWith, getParameters, getParametersWith.
    cbn [fieldParameters bind strings.Join app].
    destruct (fieldParameters getTypeName rs); reflexivity.
Qed.

Lemma function_type_merges_results_witness :
  let ps := [named "a" "int"] in
  let rs := [named "b" "string"] in
  rs <> []
  /\ ps <> []
  /\ getTypeName (ast.FuncType (Some ps) (Some rs)) = Ok "func(a int, b string)"
  /\ getTypeName (ast.FuncType (Some (ps ++ rs)%list) None) = Ok "func(a int, b string)"
  /\ getTypeName (ast.FuncType (Some []) (Some rs)) = Ok "func(, b string)".
Proof.
  intros ps rs.
  assert (H1 : rs <> []) by discriminate.
  assert (H2 : ps <> []) by discriminate.
  split; [exact H1|]. split; [exact H2|].
  destruct (function_type_merges_results ps rs H1) as [Hm He].
  split; [reflexivity|]. split; [now rewrite <- (Hm H2) | now rewrite He].
Defined.

(* ================================================================= *)
(** ** More methods on which the assembly panics *)

Lemma getTypeName_unsupported (expr : ast.Expr) :
  ast.supported expr = false -> getTypeName expr = Ok "".
Proof. destruct expr; try discriminate; reflexivity. Qed.

Lemma fieldParameters_unsupported (fs : list ast.Field) (entries : list string) :
  hasUnnamedUnsupported (Some fs) = true ->
  fieldParameters getTypeName fs = Ok entries ->
  In "" entries.
Proof.
  revert entries. induction fs as [|[names ty] fs IH]; intros entries H E; [discriminate|].
  rewrite fieldParameters_cons in E.
  cbn [hasUnnamedUnsupported existsb ast.Names ast.Type_] in H.
  destruct (getTypeName ty) as [t|] eqn:Ht; [|discriminate]. cbn [bind] in E.
  destruct (fieldParameters getTypeName fs) as [rest|] eqn:Hr; [|discriminate].
  cbn [bind] in E. injection E as <-. apply in_or_app.
  apply orb_true_iff in H as [H|H].
  - left. destruct names; [|discriminate]. apply negb_true_iff in H.
    rewrite (getTypeName_unsupported _ H) in Ht. injection Ht as <-. now left.
  - right. now apply IH.
Qed.

Lemma Split_has_blank (entries : list string) :
  In "" entries ->
  forallb (fun piece => negb (blank piece)) (strings.Split (strings.Join entries ", ") ", ")
  = false.
Proof.
  intros Hin.
  rewrite Split_Join_pieces by (intros ->; contradiction).
  induction entries as [|e l IH]; [contradiction|].
  cbn [flat_map]. rewrite forallb_app. destruct Hin as [->|Hin].
  - reflexivity.
  - rewrite IH by assumption. apply andb_false_r.
Qed.

Lemma getParameters_unsupported (l : option ast.FieldList) (text : string) :
  hasUnnamedUnsupported l = true ->
  getParameters l = Ok text ->
  isOk (getArgumentNames text) = false /\ isOk (getReturnNames text) = false.
Proof.
  destruct l as [fs|]; [|discriminate]. intros H E.
  unfold getParameters, getParametersWith in E.
  destruct (fieldParameters getTypeName fs) as [entries|] eqn:Hf; [|discriminate].
  cbn [bind] in E. injection E as <-.
  pose proof (Split_has_blank entries (fieldParameters_unsupported fs entries H Hf)) as Hb.
  pose proof (getArgumentNames_cases (strings.Join entries ", ")) as Ha.
  pose proof (getReturnNames_cases (strings.Join entries ", ")) as Hr.
  rewrite Hb in Ha, Hr. now rewrite Ha, Hr.
Qed.

Lemma methodData_unnamedUnsupported (mockName : string) (method : ast.Field) :
  unnamedUnsupported method = true -> isOk (methodData mockName method) = false.
Proof.
  destruct method as [names ty]. unfold unnamedUnsupported, methodData.
  cbn [ast.Type_ ast.Names]. intros H.
  apply bind_isOk_false. intros methodName.
  destruct ty as [| | | | | | | | | |Params Results| | |]; try discriminate H.
  destruct (getParameters Params) as [paramList|] eqn:HP; [|reflexivity]. cbn [bind].
  destruct (getParameters Results) as [returnList|] eqn:HR; [|reflexivity]. cbn [bind].
  apply orb_true_iff in H as [H|H].
  - apply bind_isOk_l. now apply (getParameters_unsupported Params).
  - apply bind_isOk_false. intros argNames. apply bind_isOk_l.
    now apply (getParameters_unsupported Results).
Qed.

(** X7.  A visited method with an unnamed parameter or result of a
    node kind the namer has no case for (a channel, a variadic
    parameter, a struct, a parenthesised or instantiated type) makes
    the call panic: the field renders to the empty text, which leaves
    a blank piece in the joined list whatever the other fields are.
    Nothing is written. *)
Theorem unnamed_unsupported_type_aborts
        (ParseFile : Parser) (writer : Writer) (interfaceCode : string)
        (node : ast.File) (methods : ast.FieldList) (method : ast.Field) :
  ParseFile ("package main" ++ LF ++ interfaceCode) = inl node ->
  In methods (visitedInterfaces node) ->
  In method methods ->
  unnamedUnsupported method = true ->
  exists p, interfaceToMock ParseFile writer interfaceCode = (writer, Panic p).
Proof.
  intros Hparse Hin Hm Hu.
  eapply interfaceToMock_panics; try eassumption.
  intros mockName. now apply methodData_unnamedUnsupported.
Qed.

Lemma unnamed_unsupported_type_aborts_witness :
  let ParseFile := parserOf ("package main" ++ LF ++ chanResultCode) chanResultFile in
  ParseFile ("package main" ++ LF ++ chanResultCode) = inl chanResultFile
  /\ In [MethodChanResult] (visitedInterfaces chanResultFile)
  /\ In MethodChanResult [MethodChanResult]
  /\ unnamedUnsupported MethodChanResult = true
  /\ exists p, interfaceToMock ParseFile NewWriter chanResultCode = (NewWriter, Panic p).
Proof.
  intros ParseFile.
  assert (H1 : ParseFile ("package main" ++ LF ++ chanResultCode) = inl chanResultFile)
    by reflexivity.
  assert (H2 : In [MethodChanResult] (visitedInterfaces chanResultFile))
    by (left; reflexivity).
  assert (H3 : In MethodChanResult [MethodChanResult]) by (left; reflexivity).
  assert (H4 : unnamedUnsupported MethodChanResult = true) by reflexivity.
  split; [exact H1|]. split; [exact H2|]. split; [exact H3|]. split; [exact H4|].
  exact (unnamed_unsupported_type_aborts ParseFile NewWriter chanResultCode chanResultFile
           [MethodChanResult] MethodChanResult H1 H2 H3 H4).
Defined.

(** X8.  A visited interface that embeds another interface (an element
    of its method list without a name) makes the call panic: the
    assembly of that element indexes the first of no names (index 0 of
    an empty slice).  Nothing is written. *)
Theorem embedded_interface_aborts
        (ParseFile : Parser) (writer : Writer) (interfaceCode : string)
        (node : ast.File) (methods : ast.FieldList) (method : ast.Field) :
  ParseFile ("package main" ++ LF ++ interfaceCode) = inl node ->
  In methods (visitedInterfaces node) ->
  In method methods ->
  ast.Names method = [] ->
  (forall mockName, methodData mockName method = Panic (IndexOutOfRange 0 0))
  /\ exists p, interfaceToMock ParseFile writer interfaceCode = (writer, Panic p).
Proof.
  intros Hparse Hin Hm Hn.
  assert (Hp : forall mockName, methodData mockName method = Panic (IndexOutOfRange 0 0))
    by (intros mockName; unfold methodData; now rewrite Hn).
  split; [exact Hp|].
  eapply interfaceToMock_panics; try eassumption.
  intros mockName. now rewrite Hp.
Qed.

Lemma embedded_interface_aborts_witness :
  let ParseFile := parserOf ("package main" ++ LF ++ embeddedCode) embeddedFile in
  let methods := [EmbeddedReader; method "Close" [named "force" "bool"] [unnamed "error"]] in
  ParseFile ("package main" ++ LF ++ embeddedCode) = inl embeddedFile
  /\ In methods (visitedInterfaces embeddedFile)
  /\ In EmbeddedReader methods
  /\ ast.Names EmbeddedReader = []
  /\ exists p, interfaceToMock ParseFile NewWriter embeddedCode = (NewWriter, Panic p).
Proof.
  intros ParseFile methods.
  assert (H1 : ParseFile ("package main" ++ LF ++ embeddedCode) = inl embeddedFile)
    by reflexivity.
  assert (H2 : In methods (visitedInterfaces embeddedFile)) by (left; reflexivity).
  assert (H3 : In EmbeddedReader methods) by (left; reflexivity).
  assert (H4 : ast.Names EmbeddedReader = []) by reflexivity.
  split; [exact H1|]. split; [exact H2|]. split; [exact H3|]. split; [exact H4|].
  exact (proj2 (embedded_interface_aborts ParseFile NewWriter embeddedCode embeddedFile
                  methods EmbeddedReader H1 H2 H3 H4)).
Defined.

(* ================================================================= *)
(** ** The mocks of a file *)

Lemma targetsMocks_app (a b : list Target) :
  targetsMocks (a ++ b)
  = (ma <- targetsMocks a ;; mb <- targetsMocks b ;; Ok (ma ++ mb)%list).
Proof.
  induction a as [|[names methods] a IH].
  - cbn [app targetsMocks bind]. now rewrite bind_Ok_r.
  - change (((names, methods) :: a) ++ b)%list with ((names, methods) :: (a ++ b))%list.
    cbn [targetsMocks]. rewrite IH.
    destruct (index names 0); [|reflexivity]. cbn [bind].
    destruct (getMethodsFromInterface methods _); [|reflexivity]. cbn [bind].
    destruct (targetsMocks a); [|reflexivity]. cbn [bind].
    destruct (targetsMocks b); reflexivity.
Qed.

Lemma structMocks_targets (fields : list ast.Field) :
  structMocks fields = targetsMocks (flat_map fieldTargets fields).
Proof.
  induction fields as [|[names ty] fields IH]; [reflexivity|].
  cbn [structMocks flat_map]. rewrite targetsMocks_app, IH.
  unfold fieldTargets. cbn [ast.Type_ ast.Names].
  destruct ty as [| | | | | | | | | | |methods| |]; try reflexivity.
  all: cbn [targetsMocks].
  all: destruct (index names 0); [|reflexivity]; cbn [bind].
  all: destruct (getMethodsFromInterface methods _); reflexivity.
Qed.

Lemma specMocks_targets (spec : ast.Spec) :
  specMocks spec = targetsMocks (specTargets spec).
Proof.
  destruct spec as [| |Name ty]; try reflexivity.
  destruct ty as [| | | | | | | | |fields| |methods| |]; try reflexivity.
  apply structMocks_targets.
Qed.

Lemma specsMocks_targets (specs : list ast.Spec) :
  specsMocks specs = targetsMocks (flat_map specTargets specs).
Proof.
  induction specs as [|spec specs IH]; [reflexivity|].
  cbn [specsMocks flat_map]. now rewrite targetsMocks_app, IH, specMocks_targets.
Qed.

(** The nested loops of [interfaceToMock] make the mocks of the
    targets, one after the other. *)
Lemma declsMocks_targets (decls : list ast.Decl) :
  declsMocks decls = targetsMocks (targets decls).
Proof.
  unfold targets. induction decls as [|decl decls IH]; [reflexivity|].
  cbn [declsMocks flat_map]. rewrite targetsMocks_app, IH.
  destruct decl; try reflexivity.
  cbn [declTargets]. now rewrite specsMocks_targets.
Qed.

(** The interfaces visited are the method lists of the targets. *)
Lemma visitedInterfaces_targets (node : ast.File) :
  visitedInterfaces node = map snd (targets (ast.Decls node)).
Proof.
  unfold visitedInterfaces, targets.
  induction (ast.Decls node) as [|decl decls IH]; [reflexivity|].
  cbn [flat_map]. rewrite map_app, IH. f_equal.
  destruct decl as [|Tok specs|]; try reflexivity.
  cbn [declTargets declInterfaces].
  induction specs as [|spec specs IHs]; [reflexivity|].
  cbn [flat_map]. rewrite map_app, IHs. f_equal.
  destruct spec as [| |Name ty]; try reflexivity.
  destruct ty as [| | | | | | | | |fields0| | | |]; try reflexivity.
  cbn [specTargets specInterfaces].
  induction fields0 as [|[names ty] fields IHf]; [reflexivity|].
  cbn [flat_map]. rewrite map_app, IHf. f_equal.
  unfold fieldTargets, fieldInterfaces. cbn [ast.Type_]. destruct ty; reflexivity.
Qed.

Lemma methodsOf_length (mockName : string) (methods : list ast.Field) (l : list MethodData) :
  methodsOf mockName methods = Ok l -> length l = length methods.
Proof.
  revert l. induction methods as [|m methods IH]; intros l H.
  - injection H as <-. reflexivity.
  - cbn [methodsOf] in H.
    destruct (methodData mockName m); [|discriminate]. cbn [bind] in H.
    destruct (methodsOf mockName methods) as [ms|]; [|discriminate]. cbn [bind] in H.
    injection H as <-. cbn [length]. now rewrite (IH ms eq_refl).
Qed.

Lemma targetsMocks_mockOf (ts : list Target) (mocks : list Mocks) :
  targetsMocks ts = Ok mocks -> Forall2 mockOf mocks ts.
Proof.
  revert mocks. induction ts as [|[names methods] ts IH]; intros mocks H.
  - injection H as <-. constructor.
  - cbn [targetsMocks] in H.
    destruct names as [|first names]; [discriminate|].
    cbn [index nth_error bind] in H.
    destruct (getMethodsFromInterface methods (first ++ "Mock")) as [ms|] eqn:Hm;
      [|discriminate].
    cbn [bind] in H. destruct (targetsMocks ts) as [rest|]; [|discriminate].
    cbn [bind] in H. injection H as <-. constructor; [|now apply IH].
    exists first. cbn [fst snd MockName Methods hd_error]. repeat split.
    now apply (methodsOf_length (first ++ "Mock")).
Qed.

Lemma interfaceToMock_nil_inv (ParseFile : Parser) (writer writer' : Writer)
      (interfaceCode : string) :
  interfaceToMock ParseFile writer interfaceCode = (writer', Ok None) ->
  exists node mocks,
    ParseFile ("package main" ++ LF ++ interfaceCode) = inl node
    /\ declsMocks (ast.Decls node) = Ok mocks
    /\ err writer = None
    /\ writer' = {| written := written writer ++ mockTemplate {| Mocks_ := mocks |};
                    err := None |}.
Proof.
  unfold interfaceToMock, Execute. intros H.
  destruct (ParseFile _) as [node|e] eqn:Hp; [|discriminate].
  destruct (declsMocks (ast.Decls node)) as [mocks|] eqn:Hm; [|discriminate].
  destruct (err writer) eqn:He; [discriminate|].
  injection H as <-. now exists node, mocks.
Qed.

Lemma append_inv_head (a x y : string) : a ++ x = a ++ y -> x = y.
Proof. induction a as [|c a IH]; cbn [append]; intros H; [exact H | injection H; auto]. Qed.

(** X9.  When the call returns nil, the output is the header followed
    by exactly one block per interface the generator visits, in source
    order: the block of a named interface type is named after the
    type, the block of an interface-typed struct field after the
    field's first name, each with the suffix [Mock], and each holds one
    method per element of the interface's method list. *)
Theorem one_mock_per_visited_interface
        (ParseFile : Parser) (writer writer' : Writer) (interfaceCode : string)
        (node : ast.File) :
  ParseFile ("package main" ++ LF ++ interfaceCode) = inl node ->
  interfaceToMock ParseFile writer interfaceCode = (writer', Ok None) ->
  exists mocks,
    Forall2 mockOf mocks (targets (ast.Decls node))
    /\ length mocks = length (visitedInterfaces node)
    /\ written writer'
       = written writer ++ mockHeader ++ String.concat "" (map renderMock mocks).
Proof.
  intros Hparse H.
  destruct (interfaceToMock_nil_inv _ _ _ _ H) as (node' & mocks & Hp & Hm & _ & ->).
  rewrite Hparse in Hp. injection Hp as <-.
  exists mocks. rewrite declsMocks_targets in Hm.
  pose proof (targetsMocks_mockOf _ _ Hm) as HF.
  split; [exact HF|]. split; [|reflexivity].
  now rewrite visitedInterfaces_targets, length_map, (Forall2_length HF).
Qed.

Lemma one_mock_per_visited_interface_witness :
  let ParseFile := parserOf ("package main" ++ LF ++ classic2Code) classic2File in
  ParseFile ("package main" ++ LF ++ classic2Code) = inl classic2File
  /\ interfaceToMock ParseFile NewWriter classic2Code
     = ({| written := classic2Expected; err := None |}, Ok None)
  /\ map fst (targets (ast.Decls classic2File)) = [["bidule"]; ["chose"]]
  /\ exists mocks,
      Forall2 mockOf mocks (targets (ast.Decls classic2File))
      /\ length mocks = 2.
Proof.
  intros ParseFile.
  assert (H1 : ParseFile ("package main" ++ LF ++ classic2Code) = inl classic2File)
    by reflexivity.
  assert (H2 : interfaceToMock ParseFile NewWriter classic2Code
               = ({| written := classic2Expected; err := None |}, Ok None))
    by (vm_compute; reflexivity).
  split; [exact H1|]. split; [exact H2|]. split; [reflexivity|].
  destruct (one_mock_per_visited_interface ParseFile NewWriter _ classic2Code classic2File
              H1 H2) as (mocks & HF & HL & _).
  exists mocks. split; [exact HF | exact HL].
Defined.

(** X10.  When the input declares nothing the generator visits (only
    functions, constants, variables, imports, types that are neither
    interfaces nor structs, structs without interface-typed fields),
    the call returns nil and writes the header and nothing else. *)
Theorem nothing_visited_header_only
        (ParseFile : Parser) (writer : Writer) (interfaceCode : string) (node : ast.File) :
  ParseFile ("package main" ++ LF ++ interfaceCode) = inl node ->
  visitedInterfaces node = [] ->
  err writer = None ->
  interfaceToMock ParseFile writer interfaceCode
  = ({| written := written writer ++ mockHeader; err := None |}, Ok None).
Proof.
  intros Hparse Hv Herr.
  assert (Ht : targets (ast.Decls node) = []).
  { rewrite visitedInterfaces_targets in Hv. now apply map_eq_nil in Hv. }
  assert (Hm : declsMocks (ast.Decls node) = Ok []) by now rewrite declsMocks_targets, Ht.
  rewrite (interfaceToMock_Ok _ _ _ _ _ Hparse Hm Herr).
  unfold mockTemplate. cbn [Mocks_ map String.concat]. now rewrite append_nil_r.
Qed.

Lemma nothing_visited_header_only_witness :
  let ParseFile := parserOf ("package main" ++ LF ++ noInterfaceCode) noInterfaceFile in
  ParseFile ("package main" ++ LF ++ noInterfaceCode) = inl noInterfaceFile
  /\ visitedInterfaces noInterfaceFile = []
  /\ err NewWriter = None
  /\ interfaceToMock ParseFile NewWriter noInterfaceCode
     = ({| written := mockHeader; err := None |}, Ok None).
Proof.
  intros ParseFile.
  assert (H1 : ParseFile ("package main" ++ LF ++ noInterfaceCode) = inl noInterfaceFile)
    by reflexivity.
  assert (H2 : visitedInterfaces noInterfaceFile = []) by reflexivity.
  assert (H3 : err NewWriter = None) by reflexivity.
  split; [exact H1|]. split; [exact H2|]. split; [exact H3|].
  exact (nothing_visited_header_only ParseFile NewWriter noInterfaceCode noInterfaceFile
           H1 H2 H3).
Defined.

(** X11.  The result of a call depends on the parsed input only
    through the interfaces visited and the names their mocks are taken
    from: two inputs with the same ones give the same result on the
    same sink, whatever else they declare and however the declarations
    are grouped. *)
Theorem result_depends_on_targets
        (ParseFile : Parser) (writer : Writer) (code1 code2 : string)
        (node1 node2 : ast.File) :
  ParseFile ("package main" ++ LF ++ code1) = inl node1 ->
  ParseFile ("package main" ++ LF ++ code2) = inl node2 ->
  targets (ast.Decls node1) = targets (ast.Decls node2) ->
  interfaceToMock ParseFile writer code1 = interfaceToMock ParseFile writer code2.
Proof.
  intros H1 H2 Ht. unfold interfaceToMock.
  now rewrite H1, H2, !declsMocks_targets, Ht.
Qed.

Lemma result_depends_on_targets_witness :
  let ParseFile :=
    parserOfTable [ ("package main" ++ LF ++ biduleAmongOthersCode, biduleAmongOthersFile);
                    ("package main" ++ LF ++ biduleCode, biduleFile) ] in
  ParseFile ("package main" ++ LF ++ biduleAmongOthersCode) = inl biduleAmongOthersFile
  /\ ParseFile ("package main" ++ LF ++ biduleCode) = inl biduleFile
  /\ targets (ast.Decls biduleAmongOthersFile) = targets (ast.Decls biduleFile)
  /\ interfaceToMock ParseFile NewWriter biduleAmongOthersCode
     = ({| written := biduleOutput; err := None |}, Ok None).
Proof.
  intros ParseFile.
  assert (H1 : ParseFile ("package main" ++ LF ++ biduleAmongOthersCode)
               = inl biduleAmongOthersFile) by reflexivity.
  assert (H2 : ParseFile ("package main" ++ LF ++ biduleCode) = inl biduleFile)
    by reflexivity.
  assert (H3 : targets (ast.Decls biduleAmongOthersFile) = targets (ast.Decls biduleFile))
    by reflexivity.
  split; [exact H1|]. split; [exact H2|]. split; [exact H3|].
  rewrite (result_depends_on_targets ParseFile NewWriter biduleAmongOthersCode biduleCode
             biduleAmongOthersFile biduleFile H1 H2 H3).
  vm_compute. reflexivity.
Defined.

(** X12.  Outputs concatenate: when two inputs each generate, the input
    that declares what the first declares followed by what the second
    declares generates the header followed by the blocks of the first
    and then the blocks of the second. *)
Theorem outputs_concatenate
        (ParseFile : Parser) (codeA codeB code : string) (nodeA nodeB node : ast.File)
        (blocksA blocksB : string) (writer : Writer) :
  ParseFile ("package main" ++ LF ++ codeA) = inl nodeA ->
  ParseFile ("package main" ++ LF ++ codeB) = inl nodeB ->
  ParseFile ("package main" ++ LF ++ code) = inl node ->
  ast.Decls node = (ast.Decls nodeA ++ ast.Decls nodeB)%list ->
  interfaceToMock ParseFile NewWriter codeA
  = ({| written := mockHeader ++ blocksA; err := None |}, Ok None) ->
  interfaceToMock ParseFile NewWriter codeB
  = ({| written := mockHeader ++ blocksB; err := None |}, Ok None) ->
  err writer = None ->
  interfaceToMock ParseFile writer code
  = ({| written := written writer ++ mockHeader ++ blocksA ++ blocksB; err := None |},
     Ok None).
Proof.
  intros HpA HpB Hp Hd HA HB Herr.
  destruct (interfaceToMock_nil_inv _ _ _ _ HA) as (nA & ma & HpA' & HmA & _ & EA).
  destruct (interfaceToMock_nil_inv _ _ _ _ HB) as (nB & mb & HpB' & HmB & _ & EB).
  rewrite HpA in HpA'. injection HpA' as <-.
  rewrite HpB in HpB'. injection HpB' as <-.
  apply (f_equal written) in EA, EB.
  unfold mockTemplate in EA, EB. cbn [written NewWriter Mocks_] in EA, EB.
  change ("" ++ ?x) with x in EA, EB.
  apply append_inv_head in EA. apply append_inv_head in EB.
  assert (Hm : declsMocks (ast.Decls node) = Ok (ma ++ mb)%list)
    by now rewrite Hd, declsMocks_app, HmA, HmB.
  rewrite (interfaceToMock_Ok _ _ _ _ _ Hp Hm Herr).
  unfold mockTemplate. cbn [Mocks_].
  now rewrite map_app, concat_app, EA, EB.
Qed.

Lemma outputs_concatenate_witness :
  let ParseFile :=
    parserOfTable [ ("package main" ++ LF ++ closerCode, closerFile);
                    ("package main" ++ LF ++ emptyInterfaceCode, emptyInterfaceFile);
                    ("package main" ++ LF ++ bothCode, bothFile) ] in
  ParseFile ("package main" ++ LF ++ closerCode) = inl closerFile
  /\ ParseFile ("package main" ++ LF ++ emptyInterfaceCode) = inl emptyInterfaceFile
  /\ ParseFile ("package main" ++ LF ++ bothCode) = inl bothFile
  /\ ast.Decls bothFile = (ast.Decls closerFile ++ ast.Decls emptyInterfaceFile)%list
  /\ interfaceToMock ParseFile NewWriter closerCode
     = ({| written := mockHeader ++ closerBlocks; err := None |}, Ok None)
  /\ interfaceToMock ParseFile NewWriter emptyInterfaceCode
     = ({| written := mockHeader ++ nothingBlocks; err := None |}, Ok None)
  /\ err NewWriter = None
  /\ interfaceToMock ParseFile NewWriter bothCode
     = ({| written := mockHeader ++ closerBlocks ++ nothingBlocks; err := None |}, Ok None).
Proof.
  intros ParseFile.
  assert (H1 : ParseFile ("package main" ++ LF ++ closerCode) = inl closerFile)
    by reflexivity.
  assert (H2 : ParseFile ("package main" ++ LF ++ emptyInterfaceCode)
               = inl emptyInterfaceFile) by reflexivity.
  assert (H3 : ParseFile ("package main" ++ LF ++ bothCode) = inl bothFile) by reflexivity.
  assert (H4 : ast.Decls bothFile
               = (ast.Decls closerFile ++ ast.Decls emptyInterfaceFile)%list)
    by reflexivity.
  assert (H5 : interfaceToMock ParseFile NewWriter closerCode
               = ({| written := mockHeader ++ closerBlocks; err := None |}, Ok None))
    by (vm_compute; reflexivity).
  assert (H6 : interfaceToMock ParseFile NewWriter emptyInterfaceCode
               = ({| written := mockHeader ++ nothingBlocks; err := None |}, Ok None))
    by (vm_compute; reflexivity).
  assert (H7 : err NewWriter = None) by reflexivity.
  split; [exact H1|]. split; [exact H2|]. split; [exact H3|]. split; [exact H4|].
  split; [exact H5|]. split; [exact H6|]. split; [exact H7|].
  exact (outputs_concatenate ParseFile closerCode emptyInterfaceCode bothCode
           closerFile emptyInterfaceFile bothFile closerBlocks nothingBlocks NewWriter
           H1 H2 H3 H4 H5 H6 H7).
Defined.

(* ================================================================= *)
(** ** The command *)

Lemma getWriter_terminal (env : Env) (path : string) :
  isCharDevice env = true ->
  getWriter env (Some path)
  = if (path =? "")%string then Ok (inr errMissingResult)
    else match Create env path with
         | Some e => Ok (inr e)
         | None => Ok (inl (NewWriter, ToFile path))
         end.
Proof.
  unfold isCharDevice, getWriter. destruct (StdoutMode env) as [mode|]; [|discriminate].
  now intros ->.
Qed.

Lemma getWriter_sink (env : Env) (path : option string) (writer : Writer) (sink : Sink) :
  getWriter env path = Ok (inl (writer, sink)) ->
  writer = NewWriter
  /\ match sink with
     | ToStdout => isCharDevice env = false
     | ToFile p => isCharDevice env = true /\ path = Some p /\ p <> "" /\ Create env p = None
     end.
Proof.
  unfold getWriter, isCharDevice. destruct (StdoutMode env) as [mode|]; [|discriminate].
  destruct (Z.land mode os.ModeCharDevice =? os.ModeCharDevice)%Z.
  - destruct path as [p|]; [|discriminate].
    destruct (String.eqb_spec p ""); [discriminate|].
    destruct (Create env p) eqn:Hc; [discriminate|].
    intros H. injection H as <- <-. repeat split; assumption.
  - intros H. injection H as <- <-. now split.
Qed.

(** X14.  A run creates (or truncates) a file only when it has exactly
    one argument, standard output is a character device, the flags
    leave a non-empty path and [os.Create] accepts it; the file is the
    one at that path.  And on a character device standard output
    receives nothing but, with a wrong argument count, the usage
    line. *)
Theorem file_only_on_terminal_with_path (env : Env) :
  (forall path content,
      fileOf (main env) = Some (path, content) ->
      length (Args env) = 2
      /\ isCharDevice env = true
      /\ FlagParse env (tl (Args env)) = inl path
      /\ path <> ""
      /\ Create env path = None)
  /\ (isCharDevice env = true ->
      stdoutOf (main env) = if (length (Args env) =? 2)%nat then "" else usage).
Proof.
  unfold main. destruct (length (Args env) =? 2)%nat eqn:Hlen; cbn [negb].
  2: { split; [discriminate | reflexivity]. }
  apply Nat.eqb_eq in Hlen.
  destruct (FlagParse env (tl (Args env))) as [path|[code message]] eqn:Hflag.
  2: { split; [discriminate | reflexivity]. }
  destruct (index (Args env) 1) as [interfaceCode|]; [|split; [discriminate | reflexivity]].
  destruct (getWriter env (Some path)) as [[[writer sink]|e]|] eqn:Hw;
    try (split; [discriminate | reflexivity]).
  destruct (getWriter_sink _ _ _ _ Hw) as [-> Hsink].
  destruct (interfaceToMock (Parse env) NewWriter interfaceCode) as [writer' [[e|]|p]];
    cbn [fileOf stdoutOf]; destruct sink as [p'|]; cbn [toFile toStdout];
    split; try discriminate; try reflexivity;
    try (intros Hc; rewrite Hsink in Hc; discriminate Hc);
    intros path0 content H; injection H as <- <-;
    destruct Hsink as (Hc & Hp & Hne & Hcr); injection Hp as ->; repeat split; assumption.
Qed.

Lemma file_only_on_terminal_with_path_witness :
  let env := terminalEnv ["mock_gen"; "-result=out.go"] "out.go"
                         (parserOf "package main" (ast.mkFile "main" [])) in
  fileOf (main env) = Some ("out.go", "")
  /\ isCharDevice env = true
  /\ length (Args env) = 2
  /\ Create env "out.go" = None
  /\ stdoutOf (main env) = "".
Proof.
  intros env.
  assert (H1 : fileOf (main env) = Some ("out.go", "")) by reflexivity.
  assert (H2 : isCharDevice env = true) by reflexivity.
  destruct (file_only_on_terminal_with_path env) as [Hf Hs].
  destruct (Hf "out.go" "" H1) as (Hl & _ & _ & _ & Hc).
  split; [exact H1|]. split; [exact H2|]. split; [exact Hl|]. split; [exact Hc|].
  exact (Hs H2).
Defined.

(** X15.  On a character device without a result path the run ends
    with status 1 and [result is required] on standard error, before
    the interface is parsed: whatever the argument is, nothing is
    generated and no file is created. *)
Theorem terminal_requires_result (env : Env) (program interfaceCode : string) :
  Args env = [program; interfaceCode] ->
  FlagParse env [interfaceCode] = inl "" ->
  isCharDevice env = true ->
  main env = Exited 1 "" ("result is required" ++ LF) None.
Proof.
  intros Ha Hf Hc. unfold main. rewrite Ha. cbn [length Nat.eqb negb tl].
  rewrite Hf. cbn [index nth_error]. now rewrite getWriter_terminal.
Qed.

Lemma terminal_requires_result_witness :
  let env := terminalEnv ["mock_gen"; biduleCode] ""
                         (parserOf ("package main" ++ LF ++ biduleCode) biduleFile) in
  Args env = ["mock_gen"; biduleCode]
  /\ FlagParse env [biduleCode] = inl ""
  /\ isCharDevice env = true
  /\ main env = Exited 1 "" ("result is required" ++ LF) None.
Proof.
  intros env.
  assert (H1 : Args env = ["mock_gen"; biduleCode]) by reflexivity.
  assert (H2 : FlagParse env [biduleCode] = inl "") by reflexivity.
  assert (H3 : isCharDevice env = true) by reflexivity.
  split; [exact H1|]. split; [exact H2|]. split; [exact H3|].
  exact (terminal_requires_result env "mock_gen" biduleCode H1 H2 H3).
Defined.

(** X16.  On a character device with a result path the file is created
    before the interface is looked at: when the call then fails, by a
    parse error or by a panic, the file is left behind empty (an
    existing one has been truncated), and a parse error ends the run
    with status 1 and the wrapped message on standard error. *)
Theorem failed_run_leaves_empty_file
        (env : Env) (program interfaceCode path : string) :
  Args env = [program; interfaceCode] ->
  FlagParse env [interfaceCode] = inl path ->
  path <> "" ->
  isCharDevice env = true ->
  Create env path = None ->
  snd (interfaceToMock (Parse env) NewWriter interfaceCode) <> Ok None ->
  fileOf (main env) = Some (path, "")
  /\ stdoutOf (main env) = ""
  /\ forall e,
      Parse env ("package main" ++ LF ++ interfaceCode) = inr e ->
      main env = Exited 1 "" ("parser.ParseFile: " ++ Error e ++ LF) (Some (path, "")).
Proof.
  intros Ha Hf Hne Hc Hcr Hfail. unfold main. rewrite Ha. cbn [length Nat.eqb negb tl].
  rewrite Hf. cbn [index nth_error]. rewrite getWriter_terminal by assumption.
  apply String.eqb_neq in Hne. rewrite Hne, Hcr.
  unfold interfaceToMock, Execute in *.
  destruct (Parse env _) as [node|e0].
  - destruct (declsMocks (ast.Decls node)) as [mocks|p].
    + cbn [err NewWriter snd] in Hfail. contradiction.
    + repeat split. discriminate.
  - repeat split. intros e H. now injection H as <-.
Qed.

Lemma failed_run_leaves_empty_file_witness :
  let env := terminalEnv ["mock_gen"; "-result=out.go"] "out.go"
                         (parserOf ("package main" ++ LF ++ biduleCode) biduleFile) in
  Args env = ["mock_gen"; "-result=out.go"]
  /\ FlagParse env ["-result=out.go"] = inl "out.go"
  /\ "out.go" <> ""
  /\ isCharDevice env = true
  /\ Create env "out.go" = None
  /\ snd (interfaceToMock (Parse env) NewWriter "-result=out.go") <> Ok None
  /\ Parse env ("package main" ++ LF ++ "-result=out.go") = inr (errorString "syntax error")
  /\ main env
     = Exited 1 "" ("parser.ParseFile: syntax error" ++ LF) (Some ("out.go", "")).
Proof.
  intros env.
  assert (H1 : Args env = ["mock_gen"; "-result=out.go"]) by reflexivity.
  assert (H2 : FlagParse env ["-result=out.go"] = inl "out.go") by reflexivity.
  assert (H3 : "out.go" <> "") by discriminate.
  assert (H4 : isCharDevice env = true) by reflexivity.
  assert (H5 : Create env "out.go" = None) by reflexivity.
  assert (H6 : snd (interfaceToMock (Parse env) NewWriter "-result=out.go") <> Ok None)
    by discriminate.
  assert (H7 : Parse env ("package main" ++ LF ++ "-result=out.go")
               = inr (errorString "syntax error")) by reflexivity.
  split; [exact H1|]. split; [exact H2|]. split; [exact H3|]. split; [exact H4|].
  split; [exact H5|]. split; [exact H6|]. split; [exact H7|].
  exact (proj2 (proj2 (failed_run_leaves_empty_file env "mock_gen" "-result=out.go" "out.go"
                         H1 H2 H3 H4 H5 H6)) _ H7).
Defined.

(** X17.  When standard output is not a character device, the result
    path is not used and no file is created: a run whose one argument
    parses and assembles ends with status 0 and exactly the rendered
    template on standard output. *)
Theorem piped_run_writes_stdout
        (env : Env) (program interfaceCode path : string) (mode : Z)
        (node : ast.File) (mocks : list Mocks) :
  Args env = [program; interfaceCode] ->
  FlagParse env [interfaceCode] = inl path ->
  StdoutMode env = Some mode ->
  (Z.land mode os.ModeCharDevice =? os.ModeCharDevice)%Z = false ->
  Parse env ("package main" ++ LF ++ interfaceCode) = inl node ->
  declsMocks (ast.Decls node) = Ok mocks ->
  main env
  = Exited 0 (mockHeader ++ String.concat "" (map renderMock mocks)) "" None.
Proof.
  intros Ha Hf Hs Hm Hp Hd. unfold main. rewrite Ha. cbn [length Nat.eqb negb tl].
  rewrite Hf. cbn [index nth_error]. unfold getWriter. rewrite Hs, Hm.
  now rewrite (interfaceToMock_Ok (Parse env) NewWriter interfaceCode node mocks Hp Hd eq_refl).
Qed.

Lemma piped_run_writes_stdout_witness :
  let env := pipeEnv ["mock_gen"; biduleCode] "ignored.go"
                     (parserOf ("package main" ++ LF ++ biduleCode) biduleFile) in
  Args env = ["mock_gen"; biduleCode]
  /\ FlagParse env [biduleCode] = inl "ignored.go"
  /\ StdoutMode env = Some (Z.shiftl 1 25)
  /\ (Z.land (Z.shiftl 1 25) os.ModeCharDevice =? os.ModeCharDevice)%Z = false
  /\ Parse env ("package main" ++ LF ++ biduleCode) = inl biduleFile
  /\ main env = Exited 0 biduleOutput "" None.
Proof.
  intros env.
  assert (H1 : Args env = ["mock_gen"; biduleCode]) by reflexivity.
  assert (H2 : FlagParse env [biduleCode] = inl "ignored.go") by reflexivity.
  assert (H3 : StdoutMode env = Some (Z.shiftl 1 25)) by reflexivity.
  assert (H4 : (Z.land (Z.shiftl 1 25) os.ModeCharDevice =? os.ModeCharDevice)%Z = false)
    by reflexivity.
  assert (H5 : Parse env ("package main" ++ LF ++ biduleCode) = inl biduleFile)
    by reflexivity.
  split; [exact H1|]. split; [exact H2|]. split; [exact H3|]. split; [exact H4|].
  split; [exact H5|].
  rewrite (piped_run_writes_stdout env "mock_gen" biduleCode "ignored.go" (Z.shiftl 1 25)
             biduleFile _ H1 H2 H3 H4 H5 eq_refl).
  vm_compute. reflexivity.
Defined.

(* ================================================================= *)
(** ** The inputs on which generation succeeds *)

Lemma methodData_plain (mockName methodName : string) (names : list string)
      (ps rs : list ast.Field) :
  ps <> [] -> forallb plainField ps = true ->
  rs <> [] -> forallb plainField rs = true ->
  exists sigP sigR,
    signature ps = Ok sigP
    /\ signature rs = Ok sigR
    /\ methodData mockName
                  (ast.mkField (methodName :: names) (ast.FuncType (Some ps) (Some rs)))
       = Ok {| MethodCode :=
                 formatMethod mockName methodName
                   (strings.Join (map renderDescriptor sigP) ", ")
                   (strings.Join (map renderDescriptor sigR) ", ")
                   (strings.Join (map callName sigP) ", ")
                   (strings.Join (extractions 0 (map snd sigR)) ", ") |}.
Proof.
  intros Hps HP Hrs HR.
  destruct (plain_fields_signature ps HP) as (sigP & HsP & HplP & HneP).
  destruct (plain_fields_signature rs HR) as (sigR & HsR & HplR & HneR).
  specialize (HneP Hps). specialize (HneR Hrs).
  exists sigP, sigR. split; [exact HsP|]. split; [exact HsR|].
  destruct (plain_entries _ HplP) as [HsafeP _].
  destruct (plain_entries _ HplR) as [HsafeR HlastR].
  assert (HnP : map renderDescriptor sigP <> [])
    by (destruct sigP; [congruence | discriminate]).
  assert (HnR : map renderDescriptor sigR <> [])
    by (destruct sigR; [congruence | discriminate]).
  unfold methodData. cbn [ast.Names ast.Type_ index nth_error bind].
  rewrite (getParameters_signature ps sigP HsP). cbn [bind].
  rewrite (getParameters_signature rs sigR HsR). cbn [bind].
  rewrite getArgumentNames_Join by assumption. cbn [bind].
  rewrite getReturnNames_Join by assumption. cbn [bind].
  now rewrite plain_callNames, HlastR.
Qed.

Lemma methodsOf_plain (mockName : string) (methods : list ast.Field) :
  forallb plainMethod methods = true -> exists l, methodsOf mockName methods = Ok l.
Proof.
  induction methods as [|[names ty] methods IH]; intros H; [now exists []|].
  cbn [forallb] in H. apply andb_true_iff in H as [Hm Hl].
  destruct (IH Hl) as [l Hl']. unfold plainMethod in Hm. cbn [ast.Names ast.Type_] in Hm.
  destruct names as [|methodName names]; [discriminate|].
  destruct ty as [| | | | | | | | | |[[|p ps]|] [[|r rs]|]| | |]; try discriminate.
  apply andb_true_iff in Hm as [HP HR].
  destruct (methodData_plain mockName methodName names (p :: ps) (r :: rs))
    as (sigP & sigR & _ & _ & Hd); try assumption; try discriminate.
  cbn [methodsOf]. rewrite Hd, Hl'. cbn [bind]. eauto.
Qed.

Lemma targetsMocks_plain (ts : list Target) :
  forallb plainTarget ts = true -> exists mocks, targetsMocks ts = Ok mocks.
Proof.
  induction ts as [|[names methods] ts IH]; intros H; [now exists []|].
  cbn [forallb] in H. apply andb_true_iff in H as [Ht Hl].
  destruct (IH Hl) as [mocks Hm]. unfold plainTarget in Ht. cbn [fst snd] in Ht.
  destruct names as [|first names]; [discriminate|].
  destruct (methodsOf_plain (first ++ "Mock") methods Ht) as [l Hl'].
  cbn [targetsMocks index nth_error bind]. unfold getMethodsFromInterface.
  rewrite Hl', Hm. cbn [bind]. eauto.
Qed.

(** X18.  Generation succeeds on the plain inputs.  A method with a
    name, at least one parameter and at least one result, whose names
    are names and whose types are built from identifiers by
    qualification, pointers, slices, maps and inline interfaces, is
    generated as [func (m *Mock) Name(params) (results)] with a body
    that records the parameters under their call names and returns one
    extraction per result; and when every visited interface has a name
    and only such methods, the call returns nil and writes one block
    per visited interface. *)
Theorem plain_interfaces_generate :
  (forall (mockName methodName : string) (names : list string) (ps rs : list ast.Field),
      ps <> [] -> forallb plainField ps = true ->
      rs <> [] -> forallb plainField rs = true ->
      exists sigP sigR,
        signature ps = Ok sigP
        /\ signature rs = Ok sigR
        /\ methodData mockName
                      (ast.mkField (methodName :: names) (ast.FuncType (Some ps) (Some rs)))
           = Ok {| MethodCode :=
                     formatMethod mockName methodName
                       (strings.Join (map renderDescriptor sigP) ", ")
                       (strings.Join (map renderDescriptor sigR) ", ")
                       (strings.Join (map callName sigP) ", ")
                       (strings.Join (extractions 0 (map snd sigR)) ", ") |})
  /\ forall (ParseFile : Parser) (writer : Writer) (interfaceCode : string)
            (node : ast.File),
      ParseFile ("package main" ++ LF ++ interfaceCode) = inl node ->
      forallb plainTarget (targets (ast.Decls node)) = true ->
      err writer = None ->
      exists mocks,
        Forall2 mockOf mocks (targets (ast.Decls node))
        /\ interfaceToMock ParseFile writer interfaceCode
           = ({| written := written writer ++ mockHeader
                              ++ String.concat "" (map renderMock mocks);
                 err := None |},
              Ok None).
Proof.
  split; [apply methodData_plain|].
  intros ParseFile writer interfaceCode node Hparse Hplain Herr.
  destruct (targetsMocks_plain _ Hplain) as [mocks Hm].
  exists mocks. split; [now apply targetsMocks_mockOf|].
  rewrite <- declsMocks_targets in Hm.
  now rewrite (interfaceToMock_Ok _ _ _ _ _ Hparse Hm Herr).
Qed.

Lemma plain_interfaces_generate_witness :
  let ParseFile := parserOf ("package main" ++ LF ++ packCode) packFile in
  let ps := [ast.mkField ["arg1"; "arg2"] (ast.Ident "int")] in
  ps <> []
  /\ forallb plainField ps = true
  /\ packResults <> []
  /\ forallb plainField packResults = true
  /\ ParseFile ("package main" ++ LF ++ packCode) = inl packFile
  /\ forallb plainTarget (targets (ast.Decls packFile)) = true
  /\ err NewWriter = None
  /\ (exists sigP sigR,
         signature ps = Ok sigP
         /\ signature packResults = Ok sigR
         /\ methodData "biduleMock"
                       (ast.mkField ["Method2"] (ast.FuncType (Some ps) (Some packResults)))
            = Ok {| MethodCode :=
                      formatMethod "biduleMock" "Method2"
                        (strings.Join (map renderDescriptor sigP) ", ")
                        (strings.Join (map renderDescriptor sigR) ", ")
                        (strings.Join (map callName sigP) ", ")
                        (strings.Join (extractions 0 (map snd sigR)) ", ") |})
  /\ exists mocks,
      Forall2 mockOf mocks (targets (ast.Decls packFile))
      /\ interfaceToMock ParseFile NewWriter packCode
         = ({| written := mockHeader ++ String.concat "" (map renderMock mocks);
               err := None |},
            Ok None).
Proof.
  intros ParseFile ps.
  assert (P1 : ps <> []) by discriminate.
  assert (P2 : forallb plainField ps = true) by reflexivity.
  assert (P3 : packResults <> []) by discriminate.
  assert (P4 : forallb plainField packResults = true) by reflexivity.
  assert (H1 : ParseFile ("package main" ++ LF ++ packCode) = inl packFile) by reflexivity.
  assert (H2 : forallb plainTarget (targets (ast.Decls packFile)) = true) by reflexivity.
  assert (H3 : err NewWriter = None) by reflexivity.
  split; [exact P1|]. split; [exact P2|]. split; [exact P3|]. split; [exact P4|].
  split; [exact H1|]. split; [exact H2|]. split; [exact H3|]. split.
  - exact (proj1 plain_interfaces_generate "biduleMock" "Method2" [] ps packResults
                 P1 P2 P3 P4).
  - exact (proj2 plain_interfaces_generate ParseFile NewWriter packCode packFile H1 H2 H3).
Defined.

(* ================================================================= *)
(** ** Names and types derived from a joined text, piece by piece *)

Lemma Split_piece (e : string) :
  strings.Contains e ", " = false -> strings.Split e ", " = [e].
Proof. intros H. unfold strings.Split. now rewrite splitFrom_piece. Qed.

Lemma pieces_app (a b : list string) : pieces (a ++ b) = (pieces a ++ pieces b)%list.
Proof. apply flat_map_app. Qed.

Lemma pieces_separator_free (entries : list string) :
  Forall (fun e => strings.Contains e ", " = false) entries -> pieces entries = entries.
Proof.
  induction 1 as [|e l He _ IH]; [reflexivity|].
  unfold pieces in *. cbn [flat_map]. now rewrite Split_piece, IH.
Qed.

Lemma Split_Join_around (eb entries ea : list string) :
  entries <> [] ->
  Forall (fun e => strings.Contains e ", " = false) entries ->
  strings.Split (strings.Join (eb ++ entries ++ ea)%list ", ") ", "
  = (pieces eb ++ entries ++ pieces ea)%list.
Proof.
  intros Hne Hsep. rewrite Split_Join_pieces.
  - fold (pieces (eb ++ entries ++ ea)%list).
    now rewrite !pieces_app, (pieces_separator_free entries Hsep).
  - intros E. apply app_eq_nil in E as [_ E]. apply app_eq_nil in E as [E _].
    contradiction.
Qed.

Lemma argumentNames_app (a b : list string) :
  argumentNames (a ++ b)
  = (na <- argumentNames a ;; nb <- argumentNames b ;; Ok (na ++ nb)%list).
Proof.
  induction a as [|e a IH]; cbn [argumentNames app bind].
  - now destruct (argumentNames b).
  - destruct (index (strings.Fields e) 0); cbn [bind]; [|reflexivity].
    rewrite IH. destruct (argumentNames a); cbn [bind]; [|reflexivity].
    now destruct (argumentNames b).
Qed.



(* ================================================================= *)
(** ** Qualified result types (C5) *)




(* ================================================================= *)
(** ** Several names under one type (C6) *)

(** C6, as the code has it.  A parameter field with the names
    [a, b, ...] and a type of text [t] renders as [a t, b t, ...], one
    entry per name in declared order, each with the same type text,
    whatever the type and whatever stands around the field.  When [t]
    holds no [", "], the names are forwarded to the call-recording
    statement in that order, one after the other, after the names
    derived from the pieces of the parameters before the field and
    before the ones derived from the pieces of the parameters after
    it. *)
Theorem grouped_names_forwarded (names : list string) (T : ast.Expr) (t : string) :
  names <> [] ->
  getTypeName T = Ok t ->
  let field := ast.mkField names T in
  let entries := map (fun name => name ++ " " ++ t) names in
  fieldParameters getTypeName [field] = Ok entries
  /\ forall (before after : list ast.Field) (eb ea : list string),
      fieldParameters getTypeName before = Ok eb ->
      fieldParameters getTypeName after = Ok ea ->
      let paramList := strings.Join (eb ++ entries ++ ea)%list ", " in
      getParameters (Some (before ++ field :: after)%list) = Ok paramList
      /\ (forallb isName names = true ->
          strings.Contains t ", " = false ->
          getArgumentNames paramList
          = (argsBefore <- argumentNames (pieces eb) ;;
             argsAfter <- argumentNames (pieces ea) ;;
             Ok (strings.Join (argsBefore ++ names ++ argsAfter)%list ", "))).
Proof.
  intros Hne HT field entries.
  assert (Hfe : fieldEntries names t = entries) by (destruct names; [congruence | reflexivity]).
  split.
  { unfold field. rewrite fieldParameters_cons, HT. cbn [bind fieldParameters].
    now rewrite Hfe, app_nil_r. }
  intros before after eb ea Hb Ha paramList. split.
  { unfold paramList. rewrite <- Hfe. now apply fieldParameters_around. }
  intros Hnames Ht.
  destruct (named_entries names t Hnames Ht) as [Hse Hfirst]. fold entries in Hse, Hfirst.
  unfold getArgumentNames, paramList. rewrite Split_Join_around.
  - rewrite argumentNames_app.
    destruct (argumentNames (pieces eb)) as [nb|p]; cbn [bind]; [|reflexivity].
    rewrite argumentNames_app, (argumentNames_Ok entries), Hfirst.
    + cbn [bind]. now destruct (argumentNames (pieces ea)).
    + apply (Forall_impl _ (P := splitSafe)); [|exact Hse]. now intros e [_ H].
  - intros E. apply map_eq_nil in E. contradiction.
  - apply (Forall_impl _ (P := splitSafe)); [|exact Hse]. now intros e [H _].
Qed.

Lemma grouped_names_forwarded_witness :
  let before := [ast.mkField ["f"] funcOfTwo] in
  ["a"; "b"] <> []
  /\ getTypeName (ast.Ident "int") = Ok "int"
  /\ fieldParameters getTypeName before = Ok ["f func(x int, y int)"]
  /\ fieldParameters getTypeName [] = Ok []
  /\ forallb isName ["a"; "b"] = true
  /\ strings.Contains "int" ", " = false
  /\ fieldParameters getTypeName [ast.mkField ["a"; "b"] (ast.Ident "int")]
     = Ok ["a int"; "b int"]
  /\ getParameters (Some funcThenGrouped) = Ok "f func(x int, y int), a int, b int"
  /\ getArgumentNames "f func(x int, y int), a int, b int" = Ok "f, y, a, b".
Proof.
  intros before.
  assert (H1 : ["a"; "b"] <> []) by discriminate.
  assert (H2 : getTypeName (ast.Ident "int") = Ok "int") by reflexivity.
  assert (H3 : fieldParameters getTypeName before = Ok ["f func(x int, y int)"])
    by reflexivity.
  assert (H4 : fieldParameters getTypeName [] = Ok []) by reflexivity.
  assert (H5 : forallb isName ["a"; "b"] = true) by reflexivity.
  assert (H6 : strings.Contains "int" ", " = false) by reflexivity.
  split; [exact H1|]. split; [exact H2|]. split; [exact H3|]. split; [exact H4|].
  split; [exact H5|]. split; [exact H6|].
  destruct (grouped_names_forwarded ["a"; "b"] (ast.Ident "int") "int" H1 H2)
    as [Hf Hctx].
  split; [exact Hf|].
  destruct (Hctx before [] ["f func(x int, y int)"] [] H3 H4) as [Hp Hfw].
  split; [exact Hp|]. exact (Hfw H5 H6).
Defined.

(** C6 as stated fails: the field [a, b func(x, y int)] renders as
    [a func(x int, y int), b func(x int, y int)] and the names forwarded
    are [a, y, b, y]. *)
Lemma grouped_names_counterexample :
  getParameters (Some [ast.mkField ["a"; "b"] funcOfTwo])
  = Ok "a func(x int, y int), b func(x int, y int)"
  /\ getArgumentNames "a func(x int, y int), b func(x int, y int)" = Ok "a, y, b, y"
  /\ ~ namesForwarded ["a"; "b"] funcOfTwo.
Proof.
  split; [reflexivity|]. split; [reflexivity|].
  intros (t & paramList & Ht & _ & Hp & Ha).
  vm_compute in Hp. injection Hp as <-. vm_compute in Ha. discriminate Ha.
Qed.
